(** * Orders backend: the serializer, the listing query and the status update

    A shallow embedding of [main.py]: the helper [serialize_id] and the three
    order handlers [list_orders], [get_order] and [update_order_status].

    Python values are a closed variant, a [dict] is an association list in
    insertion order, exceptions are a [result], and the two kinds of mutable
    state the handlers touch (Python objects, the document store) are threaded
    through a state-and-error monad.  What the program only calls and does not
    define (the identifier parser, [str], the timestamp rendering, the store's
    regular expressions and its ordering) is the interface [Externals]. *)

From Stdlib Require Import List String Ascii ZArith NArith Bool Lia Arith.
From Stdlib Require Import Sorting.Permutation.
From Stdlib Require Import Floats.SpecFloat Numbers.DecimalString.
Import ListNotations.
Open Scope string_scope.
Open Scope list_scope.

#[local] Set Warnings "-register-all".


(** ** Exceptions and results *)

Inductive exn : Type :=
| HTTPException (status_code : Z) (detail : string)
| KeyError (key : string)
| ValueError (msg : string)
| InvalidId (msg : string)
| StoreError (msg : string).

Inductive result (A : Type) : Type :=
| Ok (a : A)
| Raise (e : exn).

Arguments Ok {A} a.
Arguments Raise {A} e.

(** The framework answers 200 when the handler returns, the carried status
    when it raises [HTTPException], and 500 for any other exception. *)
Definition http_status {A : Type} (r : result A) : Z :=
  match r with
  | Ok _ => 200
  | Raise (HTTPException c _) => c
  | Raise _ => 500
  end%Z.

(** ** State and error monad *)

Definition SE (S A : Type) : Type := S -> result A * S.

Definition ret {S A : Type} (a : A) : SE S A := fun s => (Ok a, s).

Definition raise {S A : Type} (e : exn) : SE S A := fun s => (Raise e, s).

Definition bind {S A B : Type} (m : SE S A) (k : A -> SE S B) : SE S B :=
  fun s =>
    match m s with
    | (Ok a, s') => k a s'
    | (Raise e, s') => (Raise e, s')
    end.

(** [try: m except Exception: h] *)
Definition try_except {S A : Type} (m : SE S A) (h : exn -> SE S A) : SE S A :=
  fun s =>
    match m s with
    | (Ok a, s') => (Ok a, s')
    | (Raise e, s') => h e s'
    end.

Declare Scope se_scope.
Delimit Scope se_scope with se.
Notation "x <- m ;; k" := (bind m (fun x => k))
  (at level 100, m at next level, right associativity) : se_scope.
Notation "m ;;; k" := (bind m (fun _ => k))
  (at level 100, right associativity) : se_scope.

Fixpoint for_each {S A : Type} (l : list A) (body : A -> SE S unit) : SE S unit :=
  match l with
  | [] => ret tt
  | x :: l' => bind (body x) (fun _ => for_each l' body)
  end.

(** ** Values *)

(** [bson.ObjectId], kept as the hexadecimal digits it is written with. *)
Record ObjectId : Type := mkObjectId { oid_hex : string }.

(** A [datetime] as the store hands it out: the calendar fields of a UTC
    instant. *)
Record datetime : Type := mkDatetime {
  dt_year : N; dt_month : N; dt_day : N;
  dt_hour : N; dt_minute : N; dt_second : N; dt_microsecond : N
}.

Inductive value : Type :=
| VNull
| VBool (b : bool)
| VInt (n : Z)
| VFloat (f : spec_float)
| VStr (s : string)
| VObjectId (o : ObjectId)
| VDatetime (t : datetime)
| VList (l : list value)
| VDoc (d : list (string * value)).

(** A document / a Python [dict] with string keys, in insertion order. *)
Definition doc : Type := list (string * value).

Definition is_datetime (v : value) : bool :=
  match v with VDatetime _ => true | _ => false end.

Definition is_object_id (v : value) : bool :=
  match v with VObjectId _ => true | _ => false end.

(** No store identifier and no timestamp, at any depth. *)
Fixpoint wire_safe (v : value) : bool :=
  match v with
  | VObjectId _ | VDatetime _ => false
  | VList l => forallb wire_safe l
  | VDoc d => forallb (fun kv => wire_safe (snd kv)) d
  | _ => true
  end.

(** ** Dictionaries *)

Fixpoint dict_get (k : string) (d : doc) : option value :=
  match d with
  | [] => None
  | (k', v) :: d' => if String.eqb k k' then Some v else dict_get k d'
  end.

(** [d[k] = v]: an existing key keeps its place, a new one goes last. *)
Fixpoint dict_set (k : string) (v : value) (d : doc) : doc :=
  match d with
  | [] => [(k, v)]
  | (k', v') :: d' =>
      if String.eqb k k' then (k', v) :: d' else (k', v') :: dict_set k v d'
  end.

Fixpoint dict_remove (k : string) (d : doc) : doc :=
  match d with
  | [] => []
  | (k', v) :: d' =>
      if String.eqb k k' then dict_remove k d' else (k', v) :: dict_remove k d'
  end.

(** [d.pop(k)]: the value and the dictionary without the key, or nothing
    when the key is missing.  A key occurs once in a dictionary, so that
    [dict_remove] takes out the one entry. *)
Definition dict_pop (k : string) (d : doc) : option (value * doc) :=
  match dict_get k d with
  | Some v => Some (v, dict_remove k d)
  | None => None
  end.

Definition keys (d : doc) : list string := map fst d.

Fixpoint mem_string (k : string) (l : list string) : bool :=
  match l with
  | [] => false
  | k' :: l' => String.eqb k k' || mem_string k l'
  end.

(** The keys of a dictionary are pairwise distinct. *)
Fixpoint keys_unique (d : doc) : bool :=
  match d with
  | [] => true
  | (k, _) :: d' => negb (mem_string k (keys d')) && keys_unique d'
  end.

(** Python truthiness of a dictionary: [not d] holds for the empty one. *)
Definition is_empty (d : doc) : bool :=
  match d with [] => true | _ => false end.

(** ** What the program calls but does not define *)

Class Externals : Type := {
  (** [ObjectId(s)]: the identifier, or nothing when the constructor raises *)
  parse_object_id : string -> option ObjectId;
  (** [str(v)] *)
  py_str : value -> string;
  (** [t.astimezone(timezone.utc).isoformat()] *)
  isoformat_utc : datetime -> string;
  (** the store's regular expressions: [regex_compile pattern options] is
      the search predicate on subject strings, or nothing when the store
      rejects the pattern *)
  regex_compile : string -> string -> option (string -> bool);
  (** the store's ordering of a result set by a field and a direction, or
      nothing when the store rejects the sort key *)
  sort_docs : string -> Z -> list doc -> option (list doc)
}.

(** ** Python objects *)

(** Dictionaries live in a heap and are passed by reference, so that a
    mutation is seen by every holder of the reference. *)
Definition ref : Type := nat.
Definition Heap : Type := list doc.

Definition deref (h : Heap) (r : ref) : doc := nth r h [].

Fixpoint assign (h : Heap) (r : ref) (d : doc) : Heap :=
  match h, r with
  | [], _ => []
  | _ :: h', O => d :: h'
  | x :: h', S r' => x :: assign h' r' d
  end.

Definition alloc (d : doc) (h : Heap) : ref * Heap := (List.length h, h ++ [d]).

(** [list(doc.items())]: a snapshot of the entries *)
Definition dict_items (r : ref) : SE Heap (list (string * value)) :=
  fun h => (Ok (deref h r), h).

(** [doc.pop(k)] *)
Definition dict_pop_ref (r : ref) (k : string) : SE Heap value :=
  fun h =>
    match dict_pop k (deref h r) with
    | Some (v, d') => (Ok v, assign h r d')
    | None => (Raise (KeyError k), h)
    end.

(** [doc[k] = v] *)
Definition dict_setitem (r : ref) (k : string) (v : value) : SE Heap unit :=
  fun h => (Ok tt, assign h r (dict_set k v (deref h r))).

Section Serializer.
Context {E : Externals}.

Open Scope se_scope.

(** The body of the loop of [serialize_id]. *)
Definition convert_datetime (r : ref) (kv : string * value) : SE Heap unit :=
  match snd kv with
  | VDatetime t => dict_setitem r (fst kv) (VStr (isoformat_utc t))
  | _ => ret tt
  end.

(** [serialize_id(doc)].  The argument is [None] or a reference to a
    dictionary, which is changed in place and returned. *)
Definition serialize_id (doc : option ref) : SE Heap (option ref) :=
  match doc with
  | None => ret None
  | Some r =>
      d <- dict_items r ;;
      if is_empty d then ret doc
      else
        v <- dict_pop_ref r "_id" ;;
        (dict_setitem r "id" (VStr (py_str v)) ;;;
         (items <- dict_items r ;;
          (for_each items (convert_datetime r) ;;;
           ret doc)))
  end.

(** The serializer run on a dictionary nobody else holds (one decoded from
    the store for this request): its outcome as a value. *)
Definition serialize_fresh (d : doc) : result doc :=
  let (r, h) := alloc d [] in
  match serialize_id (Some r) h with
  | (Ok (Some r'), h') => Ok (deref h' r')
  | (Ok None, _) => Ok d
  | (Raise e, _) => Raise e
  end.

(** The same for a result of [find_one], which may be [None]. *)
Definition serialize_fresh_opt (d : option doc) : result (option doc) :=
  match d with
  | None =>
      match serialize_id None [] with
      | (Ok _, _) => Ok None
      | (Raise e, _) => Raise e
      end
  | Some d =>
      match serialize_fresh d with
      | Ok d' => Ok (Some d')
      | Raise e => Raise e
      end
  end.

(** One turn of the loop of [serialize_id], on the dictionary itself. *)
Definition convert_step (acc : doc) (kv : string * value) : doc :=
  match snd kv with
  | VDatetime t => dict_set (fst kv) (VStr (isoformat_utc t)) acc
  | _ => acc
  end.

(** What [serialize_id] leaves in a dictionary [d] whose [_id] is [v]:
    the statements of the function, run on the dictionary. *)
Definition serialize_body (d : doc) (v : value) : doc :=
  let d1 := dict_set "id" (VStr (py_str v)) (dict_remove "_id" d) in
  fold_left convert_step d1 d1.

(** The same in closed form: every top-level timestamp rendered. *)
Definition render_value (v : value) : value :=
  match v with
  | VDatetime t => VStr (isoformat_utc t)
  | _ => v
  end.

Definition render (kv : string * value) : string * value :=
  (fst kv, render_value (snd kv)).

Definition serialized (d : doc) (v : value) : doc :=
  map render (dict_set "id" (VStr (py_str v)) (dict_remove "_id" d)).

(** Serializing the record at [r] a second time succeeds and leaves what
    the first time left: the idempotence the specification asks for. *)
Definition reserializes (h : Heap) (r : ref) : Prop :=
  forall out h1,
    serialize_id (Some r) h = (Ok out, h1) ->
    exists h2,
      serialize_id out h1 = (Ok out, h2) /\ deref h2 r = deref h1 r.

End Serializer.

(** ** Strings *)

Fixpoint mem_ascii (c : ascii) (s : string) : bool :=
  match s with
  | EmptyString => false
  | String c' s' => Ascii.eqb c c' || mem_ascii c s'
  end.

(** [s.lstrip(chars)]: drop leading characters for as long as they belong
    to [chars]. *)
Fixpoint lstrip (chars : string) (s : string) : string :=
  match s with
  | EmptyString => EmptyString
  | String c s' => if mem_ascii c chars then lstrip chars s' else s
  end.

(** [s.startswith(p)] *)
Definition startswith (p s : string) : bool := String.prefix p s.

(** Removing one leading dash and no more: the reading of the sort
    parameter that the specification words suggest, to compare with
    [lstrip]. *)
Definition strip_single_dash (s : string) : string :=
  match s with
  | String "-" s' => s'
  | _ => s
  end.

(** [n] dashes. *)
Fixpoint dashes (n : nat) : string :=
  match n with
  | O => EmptyString
  | S n' => String "-" (dashes n')
  end.

Definition lower_ascii (c : ascii) : ascii :=
  let n := nat_of_ascii c in
  if (65 <=? n)%nat && (n <=? 90)%nat then ascii_of_nat (n + 32) else c.

Fixpoint lower (s : string) : string :=
  match s with
  | EmptyString => EmptyString
  | String c s' => String (lower_ascii c) (lower s')
  end.

(** [q] is a prefix of [s], letter case aside. *)
Fixpoint prefix_ci (q s : string) : bool :=
  match q, s with
  | EmptyString, _ => true
  | String _ _, EmptyString => false
  | String a q', String b s' =>
      Ascii.eqb (lower_ascii a) (lower_ascii b) && prefix_ci q' s'
  end.

(** [q] occurs in [s] as a substring, letter case aside. *)
Fixpoint contains_ci (q s : string) : bool :=
  match s with
  | EmptyString => prefix_ci q EmptyString
  | String _ s' => prefix_ci q s || contains_ci q s'
  end.

(** The characters that mean something in a regular expression. *)
Definition is_meta (c : ascii) : bool := mem_ascii c ".*+?()[]{}^$|\".

Fixpoint no_meta (s : string) : bool :=
  match s with
  | EmptyString => true
  | String c s' => negb (is_meta c) && no_meta s'
  end.

(** ** The document store *)

(** A cursor as the driver builds it, before anything is sent. *)
Record Cursor : Type := mkCursor {
  c_filter : doc;
  c_sort : option (string * Z);
  c_skip : Z;
  c_limit : Z
}.

Inductive StoreCall : Type :=
| CallCountDocuments (f : doc)
| CallFind (c : Cursor)
| CallFindOne (f : doc)
| CallUpdateOne (f u : doc).

(** The [order] collection behind the handle [db]: its documents in their
    natural order, whether the server can be reached, and the requests sent
    so far (latest first). *)
Record Store : Type := mkStore {
  docs : list doc;
  reachable : bool;
  calls : list StoreCall
}.

Definition lift {S A : Type} (r : result A) : SE S A := fun s => (r, s).

Fixpoint traverse {A B : Type} (f : A -> result B) (l : list A) : result (list B) :=
  match l with
  | [] => Ok []
  | x :: l' =>
      match f x with
      | Raise e => Raise e
      | Ok y =>
          match traverse f l' with
          | Raise e => Raise e
          | Ok ys => Ok (y :: ys)
          end
      end
  end.

(** [$set]: assign the fields one after the other. *)
Definition apply_set (fields : doc) (d : doc) : doc :=
  fold_left (fun acc kv => dict_set (fst kv) (snd kv) acc) fields d.

(** Change the first document that satisfies [p]; nothing when none does. *)
Fixpoint update_first (p : doc -> bool) (g : doc -> doc) (ds : list doc)
  : option (list doc) :=
  match ds with
  | [] => None
  | d :: ds' =>
      if p d then Some (g d :: ds')
      else match update_first p g ds' with
           | Some r => Some (d :: r)
           | None => None
           end
  end.

Definition find (f : doc) : Cursor :=
  {| c_filter := f; c_sort := None; c_skip := 0; c_limit := 0 |}.

Definition cursor_sort (c : Cursor) (field : string) (direction : Z) : Cursor :=
  {| c_filter := c_filter c; c_sort := Some (field, direction);
     c_skip := c_skip c; c_limit := c_limit c |}.

Definition cursor_skip (c : Cursor) (n : Z) : result Cursor :=
  if (n <? 0)%Z then Raise (ValueError "skip must be >= 0")
  else Ok {| c_filter := c_filter c; c_sort := c_sort c;
             c_skip := n; c_limit := c_limit c |}.

Definition cursor_limit (c : Cursor) (n : Z) : Cursor :=
  {| c_filter := c_filter c; c_sort := c_sort c;
     c_skip := c_skip c; c_limit := n |}.

(** A window on a result set: a limit of 0 means no limit. *)
Definition window (skip limit : Z) (l : list doc) : list doc :=
  let rest := skipn (Z.to_nat skip) l in
  if (limit =? 0)%Z then rest else firstn (Z.to_nat (Z.abs limit)) rest.

Section Orders.
Context {E : Externals}.

Open Scope se_scope.
Open Scope Z_scope.

(** *** The query language, as far as the handlers use it *)

Definition field_regex (field : string) (m : string -> bool) (d : doc) : bool :=
  match dict_get field d with
  | Some (VStr s) => m s
  | _ => false
  end.

Definition field_is_string (field : string) (s : string) (d : doc) : bool :=
  match dict_get field d with
  | Some (VStr s') => String.eqb s s'
  | _ => false
  end.

Definition field_is_id (field : string) (o : ObjectId) (d : doc) : bool :=
  match dict_get field d with
  | Some (VObjectId o') => String.eqb (oid_hex o) (oid_hex o')
  | _ => false
  end.

(** One [field: condition] entry of a filter: a string or an identifier
    to equal, or [{"$regex": p, "$options": o}]. *)
Definition compile_condition (field : string) (c : value)
  : option (doc -> bool) :=
  match c with
  | VStr s => Some (field_is_string field s)
  | VObjectId o => Some (field_is_id field o)
  | VDoc ops =>
      match dict_get "$regex" ops, dict_get "$options" ops with
      | Some (VStr p), Some (VStr o) =>
          match regex_compile p o with
          | Some m => Some (field_regex field m)
          | None => None
          end
      | _, _ => None
      end
  | _ => None
  end.

(** A filter is the conjunction of its entries; the entry [$or] holds a
    non-empty list of filters and is their disjunction.  Nothing is
    returned for a filter the store rejects. *)
Fixpoint compile_query (f : value) : option (doc -> bool) :=
  match f with
  | VDoc conds =>
      (fix conj (cs : list (string * value)) : option (doc -> bool) :=
         match cs with
         | [] => Some (fun _ => true)
         | (k, c) :: cs' =>
             let this :=
               if String.eqb k "$or" then
                 match c with
                 | VList (g :: gs) =>
                     (fix disj (l : list value) : option (doc -> bool) :=
                        match l with
                        | [] => Some (fun _ => false)
                        | x :: l' =>
                            match compile_query x, disj l' with
                            | Some p, Some p' => Some (fun d => p d || p' d)
                            | _, _ => None
                            end
                        end) (g :: gs)
                 | _ => None
                 end
               else compile_condition k c in
             match this, conj cs' with
             | Some p, Some p' => Some (fun d => p d && p' d)
             | _, _ => None
             end
         end) conds
  | _ => None
  end.

(** *** Requests to the store *)

(** Every request is recorded; it fails when the server cannot be
    reached or rejects the filter. *)
Definition request {A : Type} (c : StoreCall) (f : doc)
    (run : (doc -> bool) -> list doc -> result A * list doc) : SE Store A :=
  fun s =>
    let log := c :: calls s in
    if reachable s then
      match compile_query (VDoc f) with
      | Some p =>
          let (r, ds) := run p (docs s) in
          (r, {| docs := ds; reachable := true; calls := log |})
      | None =>
          (Raise (StoreError "query rejected"),
           {| docs := docs s; reachable := true; calls := log |})
      end
    else
      (Raise (StoreError "server unreachable"),
       {| docs := docs s; reachable := false; calls := log |}).

Definition count_documents (f : doc) : SE Store Z :=
  request (CallCountDocuments f) f
    (fun p ds => (Ok (Z.of_nat (List.length (filter p ds))), ds)).

(** Iterating a cursor: filter, order, skip, limit. *)
Definition fetch (c : Cursor) : SE Store (list doc) :=
  request (CallFind c) (c_filter c)
    (fun p ds =>
       let matched := filter p ds in
       match c_sort c with
       | Some (field, direction) =>
           match sort_docs field direction matched with
           | Some ordered =>
               (Ok (window (c_skip c) (c_limit c) ordered), ds)
           | None => (Raise (StoreError "sort rejected"), ds)
           end
       | None => (Ok (window (c_skip c) (c_limit c) matched), ds)
       end).

Definition find_one (f : doc) : SE Store (option doc) :=
  request (CallFindOne f) f (fun p ds => (Ok (hd_error (filter p ds)), ds)).

(** [update_one(f, u).matched_count] *)
Definition update_one (f u : doc) : SE Store Z :=
  request (CallUpdateOne f u) f
    (fun p ds =>
       match dict_get "$set" u with
       | Some (VDoc fields) =>
           match update_first p (apply_set fields) ds with
           | Some ds' => (Ok 1, ds')
           | None => (Ok 0, ds)
           end
       | _ => (Raise (StoreError "update rejected"), ds)
       end).

(** *** The handlers *)

(** [if db is None: raise HTTPException(500, ...)], then the body. *)
Definition with_db {A : Type} (db : option Store) (body : SE Store A)
  : result A * option Store :=
  match db with
  | None => (Raise (HTTPException 500 "Database not configured"), None)
  | Some s => let (r, s') := body s in (r, Some s')
  end.

Definition regex_clause (field q : string) : value :=
  VDoc [(field, VDoc [("$regex", VStr q); ("$options", VStr "i")])].

(** The filter [list_orders] builds from [q] and [status]; [if q:] and
    [if status:] hold for a string that is present and not empty. *)
Definition filter_query (q status : option string) : doc :=
  let f0 : doc := [] in
  let f1 :=
    match q with
    | Some (String c q') =>
        dict_set "$or"
          (VList [regex_clause "order_number" (String c q');
                  regex_clause "customer_name" (String c q');
                  regex_clause "email" (String c q')]) f0
    | _ => f0
    end in
  match status with
  | Some (String c st') => dict_set "status" (VStr (String c st')) f1
  | _ => f1
  end.

Definition sort_field_of (sort : string) : string := lstrip "-" sort.

Definition direction_of (sort : string) : Z :=
  if startswith "-" sort then -1 else 1.

Record Listing : Type := mkListing {
  items : list doc;
  page : Z;
  page_size : Z;
  total : Z
}.

Definition list_orders (db : option Store) (q status : option string)
    (sort : string) (page page_size : Z) : result Listing * option Store :=
  with_db db
    (let fq := filter_query q status in
     let sort_field := sort_field_of sort in
     let direction := direction_of sort in
     total <- count_documents fq ;;
     (sorted <- ret (cursor_sort (find fq) sort_field direction) ;;
      (skipped <- lift (cursor_skip sorted ((page - 1) * page_size)) ;;
       (cursor <- ret (cursor_limit skipped page_size) ;;
        (ds <- fetch cursor ;;
         (items <- lift (traverse serialize_fresh ds) ;;
          ret {| items := items; page := page;
                 page_size := page_size; total := total |})))))).

(** [ObjectId(order_id)] *)
Definition object_id (order_id : string) : SE Store ObjectId :=
  match parse_object_id order_id with
  | Some o => ret o
  | None => raise (InvalidId order_id)
  end.

Definition get_order (db : option Store) (order_id : string)
  : result doc * option Store :=
  with_db db
    (doc <- try_except
              (oid <- object_id order_id ;;
               find_one [("_id", VObjectId oid)])
              (fun _ => raise (HTTPException 400 "Invalid order id")) ;;
     match doc with
     | None => raise (HTTPException 404 "Order not found")
     | Some d =>
         if is_empty d then raise (HTTPException 404 "Order not found")
         else lift (serialize_fresh d)
     end).

(** [now] is the reading of the clock, [datetime.now(timezone.utc)]. *)
Definition update_order_status (db : option Store) (order_id : string)
    (status : string) (now : datetime) : result (option doc) * option Store :=
  with_db db
    (oid <- try_except (object_id order_id)
              (fun _ => raise (HTTPException 400 "Invalid order id")) ;;
     (matched_count <-
        update_one [("_id", VObjectId oid)]
          [("$set", VDoc [("status", VStr status);
                          ("updated_at", VDatetime now)])] ;;
      if matched_count =? 0 then raise (HTTPException 404 "Order not found")
      else
        doc <- find_one [("_id", VObjectId oid)] ;;
        lift (serialize_fresh_opt doc))).

(** *** The listing filter, as the specification words it *)

(** [q] occurs, letter case aside, in one of the three searched fields. *)
Definition text_search (q : string) (d : doc) : bool :=
  field_regex "order_number" (contains_ci q) d
  || field_regex "customer_name" (contains_ci q) d
  || field_regex "email" (contains_ci q) d.

(** The status of the record is the one asked for, when one is. *)
Definition status_ok (status : option string) (d : doc) : bool :=
  match status with
  | Some (String c st) => field_is_string "status" (String c st) d
  | _ => true
  end.

(** *** What is expected of the store *)

(** A pattern without metacharacters is searched for as it is written. *)
Definition literal_engine : Prop :=
  forall q, no_meta q = true ->
    exists m, regex_compile q "i" = Some m
              /\ forall s, m s = contains_ci q s.

(** Ordering a result set rearranges it and nothing more. *)
Definition sort_permutes : Prop :=
  forall field direction l ordered,
    sort_docs field direction l = Some ordered -> Permutation ordered l.

(** Every stored document carries the identifier the store gave it. *)
Definition has_id (d : doc) : bool :=
  match dict_get "_id" d with Some _ => true | None => false end.

End Orders.

(** ** A reference implementation of the interface

    Enough of each collaborator to run the handlers on examples: identifiers
    of 24 hexadecimal digits, ISO-8601 rendering of UTC calendar fields, a
    regular-expression engine for literals, [.], [\x] and [*], and an
    insertion sort on the common scalar types. *)

Module Reference.

Definition is_hex (c : ascii) : bool :=
  mem_ascii c "0123456789abcdefABCDEF".

Fixpoint all_hex (s : string) : bool :=
  match s with
  | EmptyString => true
  | String c s' => is_hex c && all_hex s'
  end.

Definition parse_object_id (s : string) : option ObjectId :=
  if (String.length s =? 24)%nat && all_hex s
  then Some (mkObjectId (lower s)) else None.

Definition decimal (n : N) : string := NilZero.string_of_uint (N.to_uint n).

Fixpoint zeros (n : nat) : string :=
  match n with O => EmptyString | S n' => String "0" (zeros n') end.

(** [n] in decimal, padded with zeros on the left to [width] digits. *)
Definition padded (width : nat) (n : N) : string :=
  let s := decimal n in
  (zeros (width - String.length s) ++ s)%string.

Definition clock (sep : string) (t : datetime) : string :=
  (padded 4 (dt_year t) ++ "-" ++ padded 2 (dt_month t) ++ "-"
     ++ padded 2 (dt_day t) ++ sep ++ padded 2 (dt_hour t) ++ ":"
     ++ padded 2 (dt_minute t) ++ ":" ++ padded 2 (dt_second t)
     ++ (if (dt_microsecond t =? 0)%N then EmptyString
         else "." ++ padded 6 (dt_microsecond t)))%string.

Definition isoformat_utc (t : datetime) : string :=
  (clock "T" t ++ "+00:00")%string.

Definition py_str (v : value) : string :=
  match v with
  | VNull => "None"
  | VBool true => "True"
  | VBool false => "False"
  | VInt n => NilZero.string_of_int (Z.to_int n)
  | VStr s => s
  | VObjectId o => oid_hex o
  | VDatetime t => clock " " t
  | VFloat _ => "<float>"
  | VList _ => "<list>"
  | VDoc _ => "<dict>"
  end.

(** *** Regular expressions *)

Inductive atom : Type :=
| ALit (c : ascii)
| AAny.

Inductive token : Type :=
| TAtom (a : atom)
| TStar.

Fixpoint tokens (p : string) : option (list token) :=
  match p with
  | EmptyString => Some []
  | String c rest =>
      if Ascii.eqb c "\" then
        match rest with
        | EmptyString => None
        | String e rest' =>
            match tokens rest' with
            | Some ts => Some (TAtom (ALit e) :: ts)
            | None => None
            end
        end
      else
        let tok :=
          if Ascii.eqb c "." then Some (TAtom AAny)
          else if Ascii.eqb c "*" then Some TStar
          else if is_meta c then None
          else Some (TAtom (ALit c)) in
        match tok, tokens rest with
        | Some t, Some ts => Some (t :: ts)
        | _, _ => None
        end
  end.

(** Attach each star to the atom before it. *)
Fixpoint group (ts : list token) : option (list (atom * bool)) :=
  match ts with
  | [] => Some []
  | TStar :: _ => None
  | TAtom a :: ts' =>
      match ts' with
      | TStar :: ts'' =>
          match group ts'' with
          | Some r => Some ((a, true) :: r)
          | None => None
          end
      | _ =>
          match group ts' with
          | Some r => Some ((a, false) :: r)
          | None => None
          end
      end
  end.

Definition parse_pattern (p : string) : option (list (atom * bool)) :=
  match tokens p with
  | Some ts => group ts
  | None => None
  end.

Definition atom_match (ci : bool) (a : atom) (c : ascii) : bool :=
  match a with
  | AAny => negb (Ascii.eqb c "010")
  | ALit x =>
      if ci then Ascii.eqb (lower_ascii x) (lower_ascii c) else Ascii.eqb x c
  end.

(** The pattern matches a prefix of [s]. *)
Fixpoint match_here (ci : bool) (its : list (atom * bool)) (s : string)
  {struct its} : bool :=
  match its with
  | [] => true
  | (a, false) :: r =>
      match s with
      | String c s' => atom_match ci a c && match_here ci r s'
      | EmptyString => false
      end
  | (a, true) :: r =>
      (fix star (s : string) : bool :=
         match_here ci r s
         || match s with
            | String c s' => atom_match ci a c && star s'
            | EmptyString => false
            end) s
  end.

(** The pattern matches somewhere in [s]. *)
Fixpoint search (ci : bool) (its : list (atom * bool)) (s : string)
  {struct s} : bool :=
  match s with
  | EmptyString => match_here ci its EmptyString
  | String _ s' => match_here ci its s || search ci its s'
  end.

Definition regex_compile (pattern options : string)
  : option (string -> bool) :=
  match parse_pattern pattern with
  | None => None
  | Some its =>
      if String.eqb options "i" then Some (search true its)
      else if String.eqb options "" then Some (search false its)
      else None
  end.

(** *** Ordering *)

Definition type_rank (v : option value) : Z :=
  match v with
  | None | Some VNull => 1
  | Some (VInt _) | Some (VFloat _) => 2
  | Some (VStr _) => 3
  | Some (VDoc _) => 4
  | Some (VList _) => 5
  | Some (VObjectId _) => 7
  | Some (VBool _) => 8
  | Some (VDatetime _) => 9
  end.

Definition datetime_key (t : datetime) : list N :=
  [dt_year t; dt_month t; dt_day t; dt_hour t; dt_minute t; dt_second t;
   dt_microsecond t].

Fixpoint compare_keys (a b : list N) : comparison :=
  match a, b with
  | x :: a', y :: b' =>
      match (x ?= y)%N with Eq => compare_keys a' b' | c => c end
  | [], [] => Eq
  | [], _ :: _ => Lt
  | _ :: _, [] => Gt
  end.

Definition compare_values (a b : option value) : comparison :=
  match a, b with
  | Some (VInt x), Some (VInt y) => (x ?= y)%Z
  | Some (VStr x), Some (VStr y) => String.compare x y
  | Some (VObjectId x), Some (VObjectId y) =>
      String.compare (oid_hex x) (oid_hex y)
  | Some (VBool x), Some (VBool y) => Bool.compare x y
  | Some (VDatetime x), Some (VDatetime y) =>
      compare_keys (datetime_key x) (datetime_key y)
  | _, _ => (type_rank a ?= type_rank b)%Z
  end.

Definition before (field : string) (direction : Z) (a b : doc) : bool :=
  match compare_values (dict_get field a) (dict_get field b) with
  | Eq => true
  | Lt => (0 <=? direction)%Z
  | Gt => (direction <? 0)%Z
  end.

Fixpoint insert_sorted (field : string) (direction : Z) (d : doc)
    (l : list doc) : list doc :=
  match l with
  | [] => [d]
  | x :: l' =>
      if before field direction d x then d :: l
      else x :: insert_sorted field direction d l'
  end.

(** An empty field name is no sort key. *)
Definition sort_docs (field : string) (direction : Z) (l : list doc)
  : option (list doc) :=
  if String.eqb field "" then None
  else Some (fold_right (insert_sorted field direction) [] l).

#[export] Instance externals : Externals :=
  Build_Externals parse_object_id py_str isoformat_utc regex_compile
    sort_docs.

End Reference.

(** ** The demo orders

    The three orders of [seed_orders], as the store holds them once it has
    given each an identifier. *)

Module Demo.

Definition half (n : positive) : value := VFloat (S754_finite false n (-1)).
Definition whole (n : positive) : value := VFloat (S754_finite false n 0).

Definition line (name : string) (quantity : Z) (price : value) : value :=
  VDoc [("product_name", VStr name); ("quantity", VInt quantity);
        ("price", price)].

Definition seeded_at : datetime := mkDatetime 2024 5 17 9 30 0 0.
Definition later : datetime := mkDatetime 2024 5 18 14 2 7 250000.

Definition oid1 : ObjectId := mkObjectId "665f1c2ab7e4d90012345601".
Definition oid2 : ObjectId := mkObjectId "665f1c2ab7e4d90012345602".
Definition oid3 : ObjectId := mkObjectId "665f1c2ab7e4d90012345603".

Definition order (o : ObjectId) (number name email status : string)
    (amount : value) (lines : list value) : doc :=
  [("_id", VObjectId o); ("order_number", VStr number);
   ("customer_name", VStr name); ("email", VStr email);
   ("status", VStr status); ("total_amount", amount);
   ("items", VList lines);
   ("created_at", VDatetime seeded_at); ("updated_at", VDatetime seeded_at)].

Definition ord1001 : doc :=
  order oid1 "ORD-1001" "Ava Nguyen" "ava@example.com" "pending" (half 179)
    [line "Velvet Matte Lipstick" 1 (half 49);
     line "Hydra Glow Serum" 1 (whole 65)].

Definition ord1002 : doc :=
  order oid2 "ORD-1002" "Liam Patel" "liam@example.com" "processing"
    (whole 42) [line "Silk Finish Foundation" 1 (whole 42)].

Definition ord1003 : doc :=
  order oid3 "ORD-1003" "Maya Khan" "maya@example.com" "shipped"
    (whole 120)
    [line "Radiant Blush Palette" 1 (whole 55);
     line "Ultra Define Mascara" 2 (half 65)].

Definition store : Store :=
  {| docs := [ord1001; ord1002; ord1003]; reachable := true; calls := [] |}.

(** The same collection behind a server that does not answer. *)
Definition store_down : Store :=
  {| docs := [ord1001; ord1002; ord1003]; reachable := false; calls := [] |}.

(** The collection in the order of the order numbers. *)
Definition by_number : list doc := [ord1001; ord1002; ord1003].

(** An order with a timestamp inside a line item and a second identifier. *)
Definition nested : doc :=
  [("_id", VObjectId oid1);
   ("customer_ref", VObjectId oid2);
   ("items", VList [VDoc [("product_name", VStr "Hydra Glow Serum");
                          ("shipped_at", VDatetime later)]]);
   ("created_at", VDatetime seeded_at)].

(** The order numbers of an answer of the listing, with its total. *)
Definition numbers (r : result Listing) : option (list (option value) * Z) :=
  match r with
  | Ok out => Some (map (dict_get "order_number") (items out), total out)
  | Raise _ => None
  end.

End Demo.

(** ** The diagnostic endpoint *)

(** The handle [db] as [test_database] uses it: its attribute [name], when
    it has one, and what [list_collection_names()] does, return the names or
    raise. *)
Record Handle : Type := mkHandle {
  handle_name : option string;
  list_collection_names : result (list string)
}.

(** [response[k] = v] *)
Definition response_set (k : string) (v : value) : SE doc unit :=
  fun d => (Ok tt, dict_set k v d).

(** [os.getenv(name)] in a condition: set, and not to the empty string. *)
Definition env_set (v : option string) : bool :=
  match v with
  | Some (String _ _) => true
  | _ => false
  end.

(** [s[:n]], a character being one byte of the string *)
Definition truncate (n : nat) (s : string) : string := substring 0 n s.

Definition initial_response : doc :=
  [("backend", VStr "✅ Running");
   ("database", VStr "❌ Not Available");
   ("database_url", VNull);
   ("database_name", VNull);
   ("connection_status", VStr "Not Connected");
   ("collections", VList [])].

Section Diagnostics.
(** [str(e)] for an exception [e] *)
Variable str_exn : exn -> string.

Open Scope se_scope.

(** The two nested [try] blocks of [test_database]; the state is the
    dictionary [response], which keeps what was assigned before a raise. *)
Definition probe (db : option Handle) : SE doc unit :=
  try_except
    (match db with
     | Some h =>
         response_set "database" (VStr "✅ Available") ;;;
         (response_set "database_url" (VStr "✅ Configured") ;;;
          (response_set "database_name"
             (VStr (match handle_name h with
                    | Some n => n
                    | None => "✅ Connected"
                    end)) ;;;
           (response_set "connection_status" (VStr "Connected") ;;;
            try_except
              (collections <- lift (list_collection_names h) ;;
               (response_set "collections"
                  (VList (map VStr (firstn 10 collections))) ;;;
                response_set "database" (VStr "✅ Connected & Working")))
              (fun e =>
                 response_set "database"
                   (VStr ("⚠️  Connected but Error: "
                          ++ truncate 50 (str_exn e))%string)))))
     | None =>
         response_set "database" (VStr "⚠️  Available but not initialized")
     end)
    (fun e =>
       response_set "database"
         (VStr ("❌ Error: " ++ truncate 50 (str_exn e))%string)).

(** [test_database()], given the handle and the two environment variables
    [DATABASE_URL] and [DATABASE_NAME]. *)
Definition test_database (db : option Handle)
    (database_url database_name : option string) : result doc :=
  fst ((probe db ;;;
        (response_set "database_url"
           (VStr (if env_set database_url then "✅ Set" else "❌ Not Set")) ;;;
         (response_set "database_name"
            (VStr (if env_set database_name then "✅ Set" else "❌ Not Set")) ;;;
          (fun response => (Ok response, response)))))
         initial_response).

End Diagnostics.

(** ** Seeding *)

(** The document as the store keeps it: one without [_id] is given the
    identifier [o], in front. *)
Definition with_id (o : ObjectId) (d : doc) : doc :=
  match dict_get "_id" d with
  | Some _ => d
  | None => ("_id", VObjectId o) :: d
  end.

(** The batch with identifiers, the [n]-th identifier of the generator going
    to the first document. *)
Fixpoint assign_ids (fresh : nat -> ObjectId) (n : nat) (ds : list doc)
  : list doc :=
  match ds with
  | [] => []
  | d :: ds' => with_id (fresh n) d :: assign_ids fresh (S n) ds'
  end.

(** [insert_many(documents)]: the batch goes after the documents that are
    there; the generator has handed out as many identifiers as there are
    documents.  The log [calls] is for queries and updates and is left as
    it is. *)
Definition insert_many (fresh : nat -> ObjectId) (documents : list doc)
  : SE Store unit :=
  fun s =>
    if reachable s then
      (Ok tt,
       {| docs := docs s
                  ++ assign_ids fresh (List.length (docs s)) documents;
          reachable := true; calls := calls s |})
    else (Raise (StoreError "server unreachable"), s).

(** The literal [demo_orders] of [seed_orders]; [clock n] is the [n]-th
    reading of [datetime.now(timezone.utc)]. *)
Definition demo_order (number name email status : string) (amount : value)
    (lines : list value) (created updated : datetime) : doc :=
  [("order_number", VStr number); ("customer_name", VStr name);
   ("email", VStr email); ("status", VStr status);
   ("total_amount", amount); ("items", VList lines);
   ("created_at", VDatetime created); ("updated_at", VDatetime updated)].

Definition demo_orders (clock : nat -> datetime) : list doc :=
  [demo_order "ORD-1001" "Ava Nguyen" "ava@example.com" "pending"
     (Demo.half 179)
     [Demo.line "Velvet Matte Lipstick" 1 (Demo.half 49);
      Demo.line "Hydra Glow Serum" 1 (Demo.whole 65)]
     (clock 0%nat) (clock 1%nat);
   demo_order "ORD-1002" "Liam Patel" "liam@example.com" "processing"
     (Demo.whole 42)
     [Demo.line "Silk Finish Foundation" 1 (Demo.whole 42)]
     (clock 2%nat) (clock 3%nat);
   demo_order "ORD-1003" "Maya Khan" "maya@example.com" "shipped"
     (Demo.whole 120)
     [Demo.line "Radiant Blush Palette" 1 (Demo.whole 55);
      Demo.line "Ultra Define Mascara" 2 (Demo.half 65)]
     (clock 4%nat) (clock 5%nat)].

Definition seed_orders (db : option Store) (fresh : nat -> ObjectId)
    (clock : nat -> datetime) : result doc * option Store :=
  with_db db
    (bind (insert_many fresh (demo_orders clock))
       (fun _ =>
          ret [("inserted",
                VInt (Z.of_nat (List.length (demo_orders clock))))])).

(** A generator and a clock to run the seeding on examples. *)
Definition demo_fresh (n : nat) : ObjectId :=
  mkObjectId ("665f1c2ab7e4d9001234" ++ Reference.padded 4 (N.of_nat (100 + n)))%string.

Definition demo_clock (n : nat) : datetime :=
  mkDatetime 2024 5 19 8 0 (N.of_nat n) 0.

(** ** What the handlers keep *)

(** Every document has [_id] and distinct keys. *)
Definition well_formed (d : doc) : bool := has_id d && keys_unique d.

(** The requests a handler added to the log. *)
Definition logged (before after : Store) (added : list StoreCall) : Prop :=
  calls after = added ++ calls before.

(** The cursor [list_orders] hands to the store. *)
Definition page_cursor (q status : option string) (sort : string)
    (number size : Z) : Cursor :=
  {| c_filter := filter_query q status;
     c_sort := Some (sort_field_of sort, direction_of sort);
     c_skip := ((number - 1) * size)%Z;
     c_limit := size |}.

(** * Properties *)

(** ** The scenarios of the demo data *)

Example list_shipped :
  Demo.numbers
    (fst (list_orders (E := Reference.externals) (Some Demo.store)
            None (Some "shipped") "-created_at" 1 10))
  = Some ([Some (VStr "ORD-1003")], 1%Z).
Proof. reflexivity. Qed.

Example list_maya :
  Demo.numbers
    (fst (list_orders (E := Reference.externals) (Some Demo.store)
            (Some "maya") None "-created_at" 1 10))
  = Some ([Some (VStr "ORD-1003")], 1%Z).
Proof. reflexivity. Qed.

Example list_second_page :
  Demo.numbers
    (fst (list_orders (E := Reference.externals) (Some Demo.store)
            None None "-order_number" 2 2))
  = Some ([Some (VStr "ORD-1001")], 3%Z).
Proof. reflexivity. Qed.

Example update_then_fetch :
  let db := snd (update_order_status (E := Reference.externals)
                   (Some Demo.store) "665f1c2ab7e4d90012345602" "delivered"
                   Demo.later) in
  match fst (get_order (E := Reference.externals) db
               "665f1c2ab7e4d90012345602") with
  | Ok d =>
      dict_get "status" d = Some (VStr "delivered")
      /\ dict_get "updated_at" d = Some (VStr "2024-05-18T14:02:07.250000+00:00")
      /\ dict_get "created_at" d = Some (VStr "2024-05-17T09:30:00+00:00")
  | Raise _ => False
  end.
Proof. vm_compute. repeat split. Qed.

Example fetch_unknown_is_404 :
  http_status
    (fst (get_order (E := Reference.externals) (Some Demo.store)
            "665f1c2ab7e4d900123456ff")) = 404%Z.
Proof. reflexivity. Qed.

Example not_configured_is_500 :
  http_status
    (fst (get_order (E := Reference.externals) None "not-an-id")) = 500%Z.
Proof. reflexivity. Qed.

(** ** Dictionaries *)

Lemma mem_string_In (k : string) (l : list string) :
  mem_string k l = true <-> In k l.
Proof.
  induction l as [|k' l IH]; simpl.
  - split; [discriminate | tauto].
  - rewrite orb_true_iff, IH, String.eqb_eq. split; intros [H|H]; auto.
Qed.

Lemma keys_unique_NoDup (d : doc) : keys_unique d = true <-> NoDup (keys d).
Proof.
  induction d as [|[k v] d IH]; simpl.
  - split; [constructor | reflexivity].
  - rewrite andb_true_iff, negb_true_iff, IH. split.
    + intros [Hk Hd]. constructor; [|exact Hd].
      intro Hin. apply mem_string_In in Hin. congruence.
    + intro H. inversion H as [|? ? Hnin Hd]; subst. split; [|exact Hd].
      destruct (mem_string k (keys d)) eqn:Hm; [|reflexivity].
      apply mem_string_In in Hm. contradiction.
Qed.

Lemma dict_get_In_keys (k : string) (d : doc) :
  dict_get k d <> None <-> In k (keys d).
Proof.
  induction d as [|[k' v] d IH]; simpl.
  - tauto.
  - destruct (String.eqb_spec k k') as [->|Hne].
    + split; [auto | discriminate].
    + rewrite IH. split; [auto | intros [H|H]; [congruence | exact H]].
Qed.

Lemma dict_get_None_keys (k : string) (d : doc) :
  dict_get k d = None <-> ~ In k (keys d).
Proof.
  rewrite <- dict_get_In_keys. destruct (dict_get k d); split; intro H.
  - discriminate.
  - exfalso. apply H. discriminate.
  - intro H'. apply H'. reflexivity.
  - reflexivity.
Qed.

Lemma dict_get_set (k k' : string) (v : value) (d : doc) :
  dict_get k (dict_set k' v d) =
  if String.eqb k k' then Some v else dict_get k d.
Proof.
  induction d as [|[k0 v0] d IH]; simpl.
  - destruct (String.eqb k k'); reflexivity.
  - destruct (String.eqb_spec k' k0) as [->|Hne]; simpl.
    + destruct (String.eqb k k0); reflexivity.
    + rewrite IH. destruct (String.eqb_spec k k0) as [->|Hne'].
      * destruct (String.eqb_spec k0 k'); [congruence | reflexivity].
      * reflexivity.
Qed.

Lemma dict_get_remove (k k' : string) (d : doc) :
  dict_get k (dict_remove k' d) =
  if String.eqb k k' then None else dict_get k d.
Proof.
  induction d as [|[k0 v0] d IH]; simpl.
  - destruct (String.eqb k k'); reflexivity.
  - destruct (String.eqb_spec k' k0) as [->|Hne]; simpl.
    + rewrite IH. destruct (String.eqb k k0); reflexivity.
    + rewrite IH. destruct (String.eqb_spec k k0) as [->|Hne'].
      * destruct (String.eqb_spec k0 k'); [congruence | reflexivity].
      * reflexivity.
Qed.

Lemma keys_set_present (k : string) (v : value) (d : doc) :
  In k (keys d) -> keys (dict_set k v d) = keys d.
Proof.
  induction d as [|[k0 v0] d IH]; simpl.
  - tauto.
  - intros [->|Hin].
    + rewrite String.eqb_refl. reflexivity.
    + destruct (String.eqb k k0); simpl; [reflexivity | f_equal; auto].
Qed.

Lemma keys_set_absent (k : string) (v : value) (d : doc) :
  ~ In k (keys d) -> keys (dict_set k v d) = keys d ++ [k].
Proof.
  induction d as [|[k0 v0] d IH]; simpl.
  - reflexivity.
  - intro Hnin. destruct (String.eqb_spec k k0) as [->|Hne].
    + exfalso. auto.
    + simpl. f_equal. apply IH. tauto.
Qed.

Lemma In_keys_remove (k k' : string) (d : doc) :
  In k (keys (dict_remove k' d)) <-> In k (keys d) /\ k <> k'.
Proof.
  rewrite <- !dict_get_In_keys, dict_get_remove.
  destruct (String.eqb_spec k k'); split.
  - congruence.
  - intros [_ H]. contradiction.
  - auto.
  - tauto.
Qed.

Lemma NoDup_keys_remove (k : string) (d : doc) :
  NoDup (keys d) -> NoDup (keys (dict_remove k d)).
Proof.
  induction d as [|[k0 v0] d IH]; simpl; intro H.
  - constructor.
  - inversion H as [|? ? Hnin Hd]; subst.
    destruct (String.eqb k k0); simpl; [auto|].
    constructor; [|auto].
    intro Hin. apply In_keys_remove in Hin. tauto.
Qed.

Lemma NoDup_keys_set (k : string) (v : value) (d : doc) :
  NoDup (keys d) -> NoDup (keys (dict_set k v d)).
Proof.
  intro H. destruct (in_dec string_dec k (keys d)) as [Hin|Hnin].
  - rewrite keys_set_present; assumption.
  - rewrite keys_set_absent by assumption.
    apply NoDup_app; [exact H | repeat constructor; simpl; tauto |].
    intros x Hx [<-|[]]. contradiction.
Qed.

Lemma dict_set_middle (k : string) (v v' : value) (pre post : doc) :
  ~ In k (keys pre) ->
  dict_set k v' (pre ++ (k, v) :: post) = pre ++ (k, v') :: post.
Proof.
  induction pre as [|[k0 v0] pre IH]; simpl; intro Hnin.
  - rewrite String.eqb_refl. reflexivity.
  - destruct (String.eqb_spec k k0) as [->|Hne].
    + exfalso. auto.
    + f_equal. apply IH. tauto.
Qed.

(** ** Objects *)

Lemma nth_error_deref (h : Heap) (r : ref) (d : doc) :
  nth_error h r = Some d -> deref h r = d.
Proof. intro H. unfold deref. apply nth_error_nth. exact H. Qed.

Lemma nth_error_assign_same (h : Heap) (r : ref) (d d' : doc) :
  nth_error h r = Some d -> nth_error (assign h r d') r = Some d'.
Proof.
  revert r. induction h as [|x h IH]; intros [|r]; simpl; try discriminate.
  - reflexivity.
  - apply IH.
Qed.

Lemma nth_error_assign_other (h : Heap) (r r' : ref) (d' : doc) :
  r <> r' -> nth_error (assign h r d') r' = nth_error h r'.
Proof.
  revert r r'. induction h as [|x h IH]; intros [|r] [|r'] Hne; simpl;
    try reflexivity; try congruence.
  apply IH. congruence.
Qed.

Lemma assign_assign (h : Heap) (r : ref) (d d' : doc) :
  assign (assign h r d) r d' = assign h r d'.
Proof.
  revert r. induction h as [|x h IH]; intros [|r]; simpl; try reflexivity.
  f_equal. apply IH.
Qed.

Lemma assign_same (h : Heap) (r : ref) (d : doc) :
  nth_error h r = Some d -> assign h r d = h.
Proof.
  revert r. induction h as [|x h IH]; intros [|r]; simpl; try discriminate.
  - congruence.
  - intro H. f_equal. apply IH. exact H.
Qed.

Lemma nth_error_alloc (d : doc) (h : Heap) :
  nth_error (snd (alloc d h)) (fst (alloc d h)) = Some d.
Proof.
  unfold alloc. simpl. rewrite nth_error_app2 by lia.
  rewrite Nat.sub_diag. reflexivity.
Qed.

(** ** The serializer *)

Section SerializerFacts.
Context {E : Externals}.

(** The loop changes the dictionary at [r] as [convert_step] says, entry
    by entry of the snapshot, and never raises. *)
Lemma for_each_convert (r : ref) (snapshot : list (string * value)) :
  forall (h : Heap) (acc : doc),
    nth_error h r = Some acc ->
    for_each snapshot (convert_datetime r) h =
    (Ok tt, assign h r (fold_left convert_step snapshot acc)).
Proof.
  induction snapshot as [|[k v] snapshot IH]; intros h acc Hacc; simpl.
  - unfold ret. rewrite assign_same by exact Hacc. reflexivity.
  - unfold bind, convert_datetime, convert_step at 2. simpl.
    destruct v; try (unfold ret; apply IH; exact Hacc).
    unfold dict_setitem. rewrite (nth_error_deref _ _ _ Hacc).
    erewrite IH by (eapply nth_error_assign_same; exact Hacc).
    rewrite assign_assign. reflexivity.
Qed.

(** [serialize_id] on a reference, case by case. *)
Lemma serialize_id_empty (h : Heap) (r : ref) :
  nth_error h r = Some [] -> serialize_id (Some r) h = (Ok (Some r), h).
Proof.
  intro H. unfold serialize_id, bind, dict_items.
  rewrite (nth_error_deref _ _ _ H). reflexivity.
Qed.

Lemma serialize_id_missing (h : Heap) (r : ref) (d : doc) :
  nth_error h r = Some d -> d <> [] -> dict_get "_id" d = None ->
  serialize_id (Some r) h = (Raise (KeyError "_id"), h).
Proof.
  intros H Hne Hid. unfold serialize_id, bind, dict_items.
  rewrite (nth_error_deref _ _ _ H).
  destruct d as [|kv d]; [congruence|]. cbn [is_empty].
  unfold dict_pop_ref, dict_pop. rewrite (nth_error_deref _ _ _ H), Hid.
  reflexivity.
Qed.

Lemma serialize_id_present (h : Heap) (r : ref) (d : doc) (v : value) :
  nth_error h r = Some d -> dict_get "_id" d = Some v ->
  serialize_id (Some r) h = (Ok (Some r), assign h r (serialize_body d v)).
Proof.
  intros H Hid. unfold serialize_id, bind, dict_items.
  rewrite (nth_error_deref _ _ _ H).
  destruct d as [|kv d]; [discriminate|]. cbn [is_empty].
  unfold dict_pop_ref, dict_pop. rewrite (nth_error_deref _ _ _ H), Hid.
  unfold dict_setitem.
  set (d0 := dict_remove "_id" (kv :: d)).
  assert (H0 : nth_error (assign h r d0) r = Some d0)
    by (eapply nth_error_assign_same; exact H).
  rewrite (nth_error_deref _ _ _ H0), assign_assign.
  set (d1 := dict_set "id" (VStr (py_str v)) d0).
  assert (H1 : nth_error (assign h r d1) r = Some d1)
    by (eapply nth_error_assign_same; exact H).
  rewrite (nth_error_deref _ _ _ H1).
  rewrite (for_each_convert r d1 _ d1 H1), assign_assign.
  reflexivity.
Qed.

(** The loop only assigns to keys that are there: the keys stay. *)
Lemma keys_convert_loop (snapshot : list (string * value)) :
  forall acc : doc,
    incl (keys snapshot) (keys acc) ->
    keys (fold_left convert_step snapshot acc) = keys acc.
Proof.
  induction snapshot as [|[k v] snapshot IH]; intros acc Hincl; simpl.
  - reflexivity.
  - assert (Hk : In k (keys acc)) by (apply Hincl; left; reflexivity).
    assert (Hrest : incl (keys snapshot) (keys acc))
      by (intros x Hx; apply Hincl; right; exact Hx).
    unfold convert_step at 2. simpl.
    destruct v; try (apply IH; exact Hrest).
    rewrite IH; rewrite keys_set_present by exact Hk;
      [reflexivity | exact Hrest].
Qed.

Lemma keys_serialize_body (d : doc) (v : value) :
  keys (serialize_body d v) =
  keys (dict_set "id" (VStr (py_str v)) (dict_remove "_id" d)).
Proof. unfold serialize_body. apply keys_convert_loop. apply incl_refl. Qed.

Lemma serialize_body_no_id (d : doc) (v : value) :
  dict_get "_id" (serialize_body d v) = None.
Proof.
  apply dict_get_None_keys. rewrite keys_serialize_body.
  apply dict_get_None_keys. rewrite dict_get_set, dict_get_remove.
  reflexivity.
Qed.

Lemma serialize_body_not_empty (d : doc) (v : value) :
  serialize_body d v <> [].
Proof.
  intro H.
  assert (Hin : In "id" (keys (serialize_body d v))).
  { rewrite keys_serialize_body. apply dict_get_In_keys.
    rewrite dict_get_set. discriminate. }
  rewrite H in Hin. exact Hin.
Qed.

(** With distinct keys, the loop is a map over the entries. *)
Lemma convert_loop_map (rest : doc) :
  forall pre : doc,
    NoDup (keys (pre ++ rest)) ->
    fold_left convert_step rest (pre ++ rest) = pre ++ map render rest.
Proof.
  induction rest as [|[k v] rest IH]; intros pre Hnd; simpl.
  - reflexivity.
  - assert (Hpre : ~ In k (keys pre)).
    { unfold keys in Hnd. rewrite map_app in Hnd. simpl in Hnd.
      apply NoDup_remove_2 in Hnd. intro Hin. apply Hnd.
      apply in_or_app. left. exact Hin. }
    assert (Hstep : convert_step (pre ++ (k, v) :: rest) (k, v)
                    = (pre ++ [render (k, v)]) ++ rest).
    { unfold convert_step, render, render_value. simpl.
      rewrite <- app_assoc. simpl.
      destruct v; try reflexivity.
      apply dict_set_middle. exact Hpre. }
    rewrite Hstep, IH.
    + rewrite <- app_assoc. reflexivity.
    + unfold keys in *. rewrite !map_app in *. simpl in *.
      rewrite <- app_assoc. exact Hnd.
Qed.

Lemma serialize_body_closed (d : doc) (v : value) :
  keys_unique d = true -> serialize_body d v = serialized d v.
Proof.
  intro Hu. unfold serialize_body, serialized.
  apply (convert_loop_map _ []). simpl.
  apply NoDup_keys_set, NoDup_keys_remove, keys_unique_NoDup, Hu.
Qed.

Lemma dict_get_map_render (k : string) (d : doc) :
  dict_get k (map render d) = option_map render_value (dict_get k d).
Proof.
  induction d as [|[k0 v0] d IH]; simpl.
  - reflexivity.
  - destruct (String.eqb k k0); [reflexivity | exact IH].
Qed.

Lemma render_value_not_datetime (v : value) :
  is_datetime (render_value v) = false.
Proof. destruct v; reflexivity. Qed.

(** The serializer on a dictionary of its own. *)
Lemma serialize_fresh_present (d : doc) (v : value) :
  dict_get "_id" d = Some v -> serialize_fresh d = Ok (serialize_body d v).
Proof.
  intro Hid. unfold serialize_fresh.
  change (alloc d []) with (0%nat, [d]). cbv beta iota.
  rewrite (serialize_id_present [d] 0 d v eq_refl Hid). reflexivity.
Qed.

End SerializerFacts.

Lemma In_dict_set (k k' : string) (v w : value) (d : doc) :
  In (k, w) (dict_set k' v d) -> (k = k' /\ w = v) \/ In (k, w) d.
Proof.
  induction d as [|[k0 v0] d IH]; simpl.
  - intros [H|[]]. left. split; congruence.
  - destruct (String.eqb_spec k' k0) as [->|Hne]; simpl.
    + intros [H|H]; [left; split; congruence | right; right; exact H].
    + intros [H|H]; [right; left; exact H |].
      destruct (IH H) as [H'|H']; [left; exact H' | right; right; exact H'].
Qed.

Lemma In_dict_remove (k k' : string) (w : value) (d : doc) :
  In (k, w) (dict_remove k' d) -> In (k, w) d /\ k <> k'.
Proof.
  induction d as [|[k0 v0] d IH]; simpl.
  - tauto.
  - destruct (String.eqb_spec k' k0) as [->|Hne]; simpl.
    + intro H. destruct (IH H). tauto.
    + intros [H|H].
      * inversion H; subst. split; [left; reflexivity | congruence].
      * destruct (IH H). tauto.
Qed.

Lemma wire_safe_doc (d : doc) :
  wire_safe (VDoc d) = true <->
  forall k w, In (k, w) d -> wire_safe w = true.
Proof.
  change (wire_safe (VDoc d)) with (forallb (fun kv => wire_safe (snd kv)) d).
  rewrite forallb_forall. split.
  - intros H k w Hin. exact (H (k, w) Hin).
  - intros H [k w] Hin. exact (H k w Hin).
Qed.

(** C10: the serializer needs [_id] in a record that is not empty.  Without
    it the call raises the missing-key error and returns no record (the
    record is left as it was); with it the call returns the record, so the
    error cannot arise. *)
Theorem serialize_id_requires_id {E : Externals} (h : Heap) (r : ref) (d : doc)
    (Hr : nth_error h r = Some d) (Hne : d <> []) :
  (dict_get "_id" d = None ->
   serialize_id (Some r) h = (Raise (KeyError "_id"), h))
  /\ (forall v, dict_get "_id" d = Some v ->
      exists h', serialize_id (Some r) h = (Ok (Some r), h')).
Proof.
  split.
  - intro Hid. apply serialize_id_missing with (d := d); assumption.
  - intros v Hid. eexists. apply serialize_id_present with (d := d); eassumption.
Qed.

Lemma serialize_id_requires_id_witness :
  serialize_id (E := Reference.externals) (Some 0%nat)
    [[("order_number", VStr "ORD-1001")]]
  = (Raise (KeyError "_id"), [[("order_number", VStr "ORD-1001")]]).
Proof.
  apply (proj1 (serialize_id_requires_id (E := Reference.externals)
                  [[("order_number", VStr "ORD-1001")]] 0
                  [("order_number", VStr "ORD-1001")] eq_refl
                  ltac:(discriminate))).
  reflexivity.
Defined.

(** C2, as the specification has it, fails: the first application removes
    [_id] from the record, so the second one, on the same record, raises. *)
Lemma reserialize_fails :
  ~ reserializes (E := Reference.externals) [Demo.ord1002] 0.
Proof.
  intro H.
  edestruct (H (Some 0%nat) _ eq_refl) as [h2 [Hsecond _]].
  vm_compute in Hsecond. discriminate Hsecond.
Qed.

(** C2, amended: an absent or empty record is returned as it is, any number
    of times.  On a record with [_id] the first application succeeds and
    changes the record in place, and a second application to the same
    record raises the missing-key error.  Two records with equal content
    serialize to equal content. *)
Theorem serialize_id_twice {E : Externals} (h : Heap) (r : ref) (d : doc)
    (Hr : nth_error h r = Some d) :
  serialize_id None h = (Ok None, h)
  /\ (d = [] -> serialize_id (Some r) h = (Ok (Some r), h))
  /\ (forall v, dict_get "_id" d = Some v ->
      exists h1,
        serialize_id (Some r) h = (Ok (Some r), h1)
        /\ serialize_id (Some r) h1 = (Raise (KeyError "_id"), h1))
  /\ (forall r' v, r' <> r -> nth_error h r' = Some d ->
      dict_get "_id" d = Some v ->
      exists h1 h2,
        serialize_id (Some r) h = (Ok (Some r), h1)
        /\ serialize_id (Some r') h1 = (Ok (Some r'), h2)
        /\ deref h2 r' = deref h2 r).
Proof.
  split; [reflexivity|]. split; [|split].
  - intros ->. apply serialize_id_empty. exact Hr.
  - intros v Hid. eexists. split.
    + apply serialize_id_present with (d := d); eassumption.
    + apply serialize_id_missing with (d := serialize_body d v).
      * eapply nth_error_assign_same; exact Hr.
      * apply serialize_body_not_empty.
      * apply serialize_body_no_id.
  - intros r' v Hne Hr' Hid. do 2 eexists. split; [|split].
    + apply serialize_id_present with (d := d); eassumption.
    + apply serialize_id_present with (d := d); [|exact Hid].
      rewrite nth_error_assign_other by congruence. exact Hr'.
    + transitivity (serialize_body d v).
      * apply nth_error_deref. eapply nth_error_assign_same.
        rewrite nth_error_assign_other by congruence. exact Hr'.
      * symmetry. apply nth_error_deref.
        rewrite nth_error_assign_other by congruence.
        eapply nth_error_assign_same; exact Hr.
Qed.

Lemma serialize_id_twice_witness :
  exists h1,
    serialize_id (E := Reference.externals) (Some 0%nat)
      [Demo.ord1002; Demo.ord1002] = (Ok (Some 0%nat), h1)
    /\ serialize_id (E := Reference.externals) (Some 0%nat) h1
       = (Raise (KeyError "_id"), h1).
Proof.
  exact (proj1 (proj2 (proj2
           (serialize_id_twice (E := Reference.externals)
              [Demo.ord1002; Demo.ord1002] 0 Demo.ord1002 eq_refl)))
           (VObjectId Demo.oid2) eq_refl).
Defined.

(** C3, as the specification has it, fails: a timestamp inside a line item
    and an identifier in another field come out as they went in. *)
Lemma nested_timestamp_survives :
  exists out,
    serialize_fresh (E := Reference.externals) Demo.nested = Ok out
    /\ wire_safe (VDoc out) = false
    /\ dict_get "customer_ref" out = Some (VObjectId Demo.oid2)
    /\ dict_get "items" out =
       Some (VList [VDoc [("product_name", VStr "Hydra Glow Serum");
                          ("shipped_at", VDatetime Demo.later)]]).
Proof. eexists. repeat split; vm_compute; reflexivity. Qed.

(** C3, amended: on a record with [_id] the serializer works on the top
    level only.  The output has no [_id] and has [id] as a string; no
    top-level value of it is a timestamp; each top-level timestamp of the
    record is its ISO-8601 rendering in UTC and every other field is as it
    was.  The whole output is free of identifiers and timestamps at every
    depth when the fields of the record, [_id] aside, are timestamps or
    already free of them. *)
Theorem serialize_id_top_level {E : Externals} (h : Heap) (r : ref) (d : doc)
    (v : value) (Hr : nth_error h r = Some d) (Hu : keys_unique d = true)
    (Hid : dict_get "_id" d = Some v) :
  exists out,
    serialize_id (Some r) h = (Ok (Some r), assign h r out)
    /\ dict_get "_id" out = None
    /\ dict_get "id" out = Some (VStr (py_str v))
    /\ (forall k w, dict_get k out = Some w -> is_datetime w = false)
    /\ (forall k t, k <> "_id" -> k <> "id" ->
        dict_get k d = Some (VDatetime t) ->
        dict_get k out = Some (VStr (isoformat_utc t)))
    /\ (forall k w, k <> "_id" -> k <> "id" -> is_datetime w = false ->
        dict_get k d = Some w -> dict_get k out = Some w)
    /\ ((forall k w, In (k, w) d -> k <> "_id" ->
         is_datetime w = true \/ wire_safe w = true) ->
        wire_safe (VDoc out) = true).
Proof.
  exists (serialized d v).
  assert (Hget : forall k, k <> "_id" -> k <> "id" ->
            dict_get k (serialized d v) = option_map render_value (dict_get k d)).
  { intros k H1 H2. unfold serialized.
    rewrite dict_get_map_render, dict_get_set, dict_get_remove.
    destruct (String.eqb_spec k "id"); [contradiction|].
    destruct (String.eqb_spec k "_id"); [contradiction|]. reflexivity. }
  split; [|split; [|split; [|split; [|split; [|split]]]]].
  - rewrite <- serialize_body_closed by exact Hu.
    apply serialize_id_present with (d := d); assumption.
  - rewrite <- serialize_body_closed by exact Hu. apply serialize_body_no_id.
  - unfold serialized. rewrite dict_get_map_render, dict_get_set. reflexivity.
  - intros k w Hk. unfold serialized in Hk.
    rewrite dict_get_map_render in Hk.
    destruct (dict_get k _) as [w0|]; [|discriminate].
    simpl in Hk. inversion Hk; subst. apply render_value_not_datetime.
  - intros k t H1 H2 Hk. rewrite Hget, Hk by assumption. reflexivity.
  - intros k w H1 H2 Hw Hk. rewrite Hget, Hk by assumption.
    destruct w; try reflexivity. discriminate Hw.
  - intro Hsafe. apply wire_safe_doc. intros k w Hin.
    unfold serialized in Hin. apply in_map_iff in Hin.
    destruct Hin as [[k0 w0] [Heq Hin]].
    unfold render in Heq. simpl in Heq. inversion Heq; subst.
    apply In_dict_set in Hin. destruct Hin as [[_ ->]|Hin]; [reflexivity|].
    apply In_dict_remove in Hin. destruct Hin as [Hin Hk].
    destruct (Hsafe k w0 Hin Hk) as [Hdt|Hws].
    + destruct w0; try discriminate Hdt. reflexivity.
    + destruct w0; try discriminate Hws; exact Hws.
Qed.

Lemma serialize_id_top_level_witness :
  exists out,
    serialize_id (E := Reference.externals) (Some 0%nat) [Demo.ord1003]
    = (Ok (Some 0%nat), [out])
    /\ dict_get "_id" out = None
    /\ dict_get "id" out = Some (VStr "665f1c2ab7e4d90012345603")
    /\ dict_get "created_at" out = Some (VStr "2024-05-17T09:30:00+00:00")
    /\ wire_safe (VDoc out) = true.
Proof.
  destruct (serialize_id_top_level (E := Reference.externals)
              [Demo.ord1003] 0 Demo.ord1003 (VObjectId Demo.oid3)
              eq_refl eq_refl eq_refl)
    as [out [Hrun [Hno [Hid [_ [Hts [_ Hsafe]]]]]]].
  exists out. split; [exact Hrun|]. split; [exact Hno|]. split; [exact Hid|].
  split.
  - apply (Hts "created_at" Demo.seeded_at); [discriminate | discriminate |].
    reflexivity.
  - apply Hsafe. intros k w Hin Hk. simpl in Hin.
    repeat (destruct Hin as [Hin|Hin];
            [inversion Hin; subst; try (now right); try (now left);
             try (exfalso; apply Hk; reflexivity) |]).
    destruct Hin.
Defined.

(** ** The sort parameter *)

Lemma startswith_dash (s : string) :
  startswith "-" s = true <-> exists s', s = String "-" s'.
Proof.
  unfold startswith. destruct s as [|c s]; cbn [prefix].
  - split; [discriminate | intros [s' H]; discriminate].
  - destruct (ascii_dec "-" c) as [<-|Hne].
    + destruct s; (split; [intros _; eexists; reflexivity | reflexivity]).
    + split; [discriminate | intros [s' H]; congruence].
Qed.

Lemma lstrip_dash_cons (c : ascii) (s : string) :
  lstrip "-" (String c s) =
  if Ascii.eqb c "-" then lstrip "-" s else String c s.
Proof. simpl. rewrite orb_false_r. reflexivity. Qed.

Lemma lstrip_dash_split (s : string) :
  exists n, s = (dashes n ++ lstrip "-" s)%string.
Proof.
  induction s as [|c s [n IH]].
  - exists 0%nat. reflexivity.
  - rewrite lstrip_dash_cons. destruct (Ascii.eqb_spec c "-") as [->|Hne].
    + exists (S n). simpl. f_equal. exact IH.
    + exists 0%nat. reflexivity.
Qed.

Lemma lstrip_dash_done (s : string) : startswith "-" (lstrip "-" s) = false.
Proof.
  induction s as [|c s IH].
  - reflexivity.
  - rewrite lstrip_dash_cons. destruct (Ascii.eqb_spec c "-") as [->|Hne].
    + exact IH.
    + destruct (startswith "-" (String c s)) eqn:Hs; [|reflexivity].
      apply startswith_dash in Hs. destruct Hs as [s' Hs]. congruence.
Qed.

(** C8, as the specification has it, fails: two leading dashes are both
    removed, where removing a single one would leave the second. *)
Lemma sort_field_strips_every_dash :
  sort_field_of "--created_at" = "created_at"
  /\ strip_single_dash "--created_at" = "-created_at"
  /\ sort_field_of "--created_at" <> strip_single_dash "--created_at".
Proof.
  split; [reflexivity|]. split; [reflexivity|].
  intro H. vm_compute in H. discriminate H.
Qed.

(** C8, amended: the sort field is the parameter without all of its leading
    dashes, so it never starts with one; the order is descending exactly
    when the parameter starts with a dash and ascending otherwise.  With at
    most one leading dash this is the removal of a single dash. *)
Theorem sort_parameter (sort : string) :
  (exists n, sort = (dashes n ++ sort_field_of sort)%string)
  /\ startswith "-" (sort_field_of sort) = false
  /\ (direction_of sort = (-1)%Z <-> startswith "-" sort = true)
  /\ (direction_of sort = 1%Z <-> startswith "-" sort = false)
  /\ (startswith "--" sort = false ->
      sort_field_of sort = strip_single_dash sort).
Proof.
  split; [apply lstrip_dash_split|]. split; [apply lstrip_dash_done|].
  unfold direction_of. split; [|split].
  - destruct (startswith "-" sort); split; congruence.
  - destruct (startswith "-" sort); split; congruence.
  - unfold sort_field_of, startswith. destruct sort as [|c s]; [reflexivity|].
    rewrite lstrip_dash_cons. intro H. simpl in H.
    destruct (Ascii.eqb_spec c "-") as [->|Hne].
    + simpl. destruct s as [|c' s]; [reflexivity|].
      rewrite lstrip_dash_cons. simpl in H.
      destruct (Ascii.eqb_spec c' "-") as [->|Hne'].
      * simpl in H. destruct s; discriminate H.
      * reflexivity.
    + simpl. destruct c as [[] [] [] [] [] [] [] []]; try reflexivity.
      exfalso. apply Hne. reflexivity.
Qed.

Lemma sort_parameter_witness :
  sort_field_of "-created_at" = strip_single_dash "-created_at"
  /\ direction_of "-created_at" = (-1)%Z.
Proof.
  split.
  - apply (proj2 (proj2 (proj2 (proj2 (sort_parameter "-created_at"))))).
    reflexivity.
  - apply (proj1 (proj2 (proj2 (sort_parameter "-created_at")))).
    reflexivity.
Defined.

(** ** The listing filter *)

Section FilterFacts.
Context {E : Externals}.

Lemma field_regex_ext (field : string) (m m' : string -> bool) (d : doc) :
  (forall s, m s = m' s) -> field_regex field m d = field_regex field m' d.
Proof.
  intro H. unfold field_regex.
  destruct (dict_get field d) as [[]|]; auto.
Qed.

(** The filter built for a search term, when the store accepts the term
    as a pattern: the three fields are searched with it and the status,
    when asked for, has to be equal. *)
Lemma filter_query_regex (q : string) (status : option string)
    (m : string -> bool) :
  q <> "" -> regex_compile q "i" = Some m ->
  exists p,
    compile_query (VDoc (filter_query (Some q) status)) = Some p
    /\ forall d,
        p d = (field_regex "order_number" m d
               || field_regex "customer_name" m d
               || field_regex "email" m d)
              && status_ok status d.
Proof.
  intros Hq Hm. destruct q as [|c q]; [congruence|].
  destruct status as [[|c' st]|]; cbn; rewrite Hm;
    (eexists; split; [reflexivity|]); intro d; cbn;
    destruct (field_regex "order_number" m d),
             (field_regex "customer_name" m d),
             (field_regex "email" m d);
    cbn; rewrite ?andb_true_r; reflexivity.
Qed.

Lemma filter_query_rejected (q : string) (status : option string) :
  q <> "" -> regex_compile q "i" = None ->
  compile_query (VDoc (filter_query (Some q) status)) = None.
Proof.
  intros Hq Hm. destruct q as [|c q]; [congruence|].
  destruct status as [[|c' st]|]; cbn; rewrite Hm; reflexivity.
Qed.

(** Without a search term only the status is left. *)
Lemma filter_query_status (status : option string) :
  exists p,
    compile_query (VDoc (filter_query None status)) = Some p
    /\ forall d, p d = status_ok status d.
Proof.
  destruct status as [[|c st]|]; cbn;
    (eexists; split; [reflexivity|]); intro d; cbn;
    rewrite ?andb_true_r; reflexivity.
Qed.

End FilterFacts.

(** *** The reference engine on patterns without metacharacters *)

Lemma not_meta_plain (c : ascii) :
  is_meta c = false ->
  Ascii.eqb c "\" = false /\ Ascii.eqb c "." = false /\ Ascii.eqb c "*" = false.
Proof.
  unfold is_meta. cbn [mem_ascii]. rewrite !orb_false_iff. tauto.
Qed.

Lemma reference_tokens_literal (q : string) :
  no_meta q = true ->
  Reference.tokens q =
  Some (map (fun c => Reference.TAtom (Reference.ALit c))
            (list_ascii_of_string q)).
Proof.
  induction q as [|c q IH]; cbn [no_meta]; intro H.
  - reflexivity.
  - apply andb_true_iff in H. destruct H as [Hc Hq].
    apply negb_true_iff in Hc.
    destruct (not_meta_plain c Hc) as [H1 [H2 H3]].
    cbn [Reference.tokens list_ascii_of_string map].
    rewrite H1, H2, H3, Hc, (IH Hq). reflexivity.
Qed.

Lemma reference_group_literal (l : list ascii) :
  Reference.group (map (fun c => Reference.TAtom (Reference.ALit c)) l) =
  Some (map (fun c => (Reference.ALit c, false)) l).
Proof.
  induction l as [|c l IH].
  - reflexivity.
  - cbn [map Reference.group]. destruct l as [|c' l].
    + reflexivity.
    + cbn [map] in *. rewrite IH. reflexivity.
Qed.

Lemma reference_match_literal (q : string) :
  forall s,
    Reference.match_here true
      (map (fun c => (Reference.ALit c, false)) (list_ascii_of_string q)) s
    = prefix_ci q s.
Proof.
  induction q as [|c q IH]; intro s.
  - destruct s; reflexivity.
  - destruct s as [|b s]; [reflexivity|].
    cbn [list_ascii_of_string map Reference.match_here prefix_ci
         Reference.atom_match].
    rewrite IH. reflexivity.
Qed.

Lemma reference_search_literal (q : string) (its : list (Reference.atom * bool)) :
  (forall s, Reference.match_here true its s = prefix_ci q s) ->
  forall s, Reference.search true its s = contains_ci q s.
Proof.
  intros H s. induction s as [|b s IH]; cbn [Reference.search contains_ci].
  - apply H.
  - rewrite H, IH. reflexivity.
Qed.

Lemma reference_literal_engine : literal_engine (E := Reference.externals).
Proof.
  intros q Hq. cbn [regex_compile Reference.externals].
  unfold Reference.regex_compile, Reference.parse_pattern.
  rewrite (reference_tokens_literal q Hq), reference_group_literal.
  cbn [String.eqb Ascii.eqb Bool.eqb]. eexists. split; [reflexivity|].
  apply reference_search_literal, reference_match_literal.
Qed.

(** What [contains_ci] decides: [q] in lower case sits somewhere inside
    [s] in lower case. *)
Lemma prefix_ci_spec (q s : string) :
  prefix_ci q s = true <-> exists post, lower s = (lower q ++ post)%string.
Proof.
  revert s. induction q as [|a q IH]; intro s.
  - split; [intros _; exists (lower s); reflexivity | reflexivity].
  - destruct s as [|b s]; cbn [prefix_ci lower String.append].
    + split; [discriminate | intros [post H]; discriminate].
    + rewrite andb_true_iff, IH. split.
      * intros [Hab [post Hs]]. apply Ascii.eqb_eq in Hab.
        exists post. rewrite Hab, Hs. reflexivity.
      * intros [post H]. inversion H as [[Hab Hs]]. split.
        -- apply Ascii.eqb_refl.
        -- exists post. exact Hs.
Qed.

Lemma contains_ci_spec (q s : string) :
  contains_ci q s = true <->
  exists pre post, lower s = (pre ++ lower q ++ post)%string.
Proof.
  induction s as [|b s IH]; cbn [contains_ci].
  - rewrite prefix_ci_spec. split.
    + intros [post H]. exists EmptyString, post. exact H.
    + intros [pre [post H]]. destruct pre; [exists post; exact H|].
      discriminate H.
  - rewrite orb_true_iff, prefix_ci_spec, IH. split.
    + intros [[post H]|[pre [post H]]].
      * exists EmptyString, post. exact H.
      * exists (String (lower_ascii b) pre), post.
        cbn [lower String.append]. rewrite H. reflexivity.
    + intros [pre [post H]]. destruct pre as [|a pre].
      * left. exists post. exact H.
      * right. cbn [lower String.append] in H. injection H as _ Hs.
        exists pre, post. exact Hs.
Qed.

(** C7, as the specification has it, fails: the search term is a pattern.
    [ord.1001] finds the order ORD-1001, in which those eight characters do
    not occur, and [(] is not a pattern at all, so the store rejects the
    filter. *)
Lemma search_term_is_a_pattern :
  (exists p,
     compile_query (E := Reference.externals)
       (VDoc (filter_query (Some "ord.1001") None)) = Some p
     /\ p Demo.ord1001 = true
     /\ text_search "ord.1001" Demo.ord1001 = false)
  /\ compile_query (E := Reference.externals)
       (VDoc (filter_query (Some "(") None)) = None.
Proof.
  split; [|reflexivity].
  eexists. split; [reflexivity|]. split; vm_compute; reflexivity.
Qed.

(** C7, amended: the search term is handed to the store as a regular
    expression, not escaped, with the option [i].  The filter matches a
    record exactly when that expression finds a match in the string value of
    [order_number], [customer_name] or [email] and, when a status is given,
    the record's [status] equals it; a term the store does not accept as an
    expression makes it reject the filter.  For a term without
    metacharacters, on a store that searches such a term as it is written,
    this is the occurrence of the term as a substring, letter case aside. *)
Theorem search_filter {E : Externals} (q : string) (status : option string)
    (Hq : q <> "") :
  (forall m, regex_compile q "i" = Some m ->
     exists p,
       compile_query (VDoc (filter_query (Some q) status)) = Some p
       /\ forall d,
           p d = (field_regex "order_number" m d
                  || field_regex "customer_name" m d
                  || field_regex "email" m d)
                 && status_ok status d)
  /\ (regex_compile q "i" = None ->
      compile_query (VDoc (filter_query (Some q) status)) = None)
  /\ (literal_engine -> no_meta q = true ->
      exists p,
        compile_query (VDoc (filter_query (Some q) status)) = Some p
        /\ forall d,
            p d = true <->
            text_search q d = true /\ status_ok status d = true).
Proof.
  split; [|split].
  - intros m Hm. apply filter_query_regex; assumption.
  - intro Hm. apply filter_query_rejected; assumption.
  - intros Hlit Hplain. destruct (Hlit q Hplain) as [m [Hm Hsub]].
    destruct (filter_query_regex q status m Hq Hm) as [p [Hp Hpd]].
    exists p. split; [exact Hp|]. intro d.
    rewrite Hpd, andb_true_iff. unfold text_search.
    rewrite !(field_regex_ext _ m (contains_ci q) d Hsub). reflexivity.
Qed.

Lemma search_filter_witness :
  exists p,
    compile_query (E := Reference.externals)
      (VDoc (filter_query (Some "maya") (Some "shipped"))) = Some p
    /\ p Demo.ord1003 = true.
Proof.
  destruct (proj2 (proj2
              (search_filter (E := Reference.externals) "maya"
                 (Some "shipped") ltac:(discriminate)))
              reference_literal_engine eq_refl) as [p [Hp Hpd]].
  exists p. split; [exact Hp|]. apply Hpd. split; reflexivity.
Defined.

(** C9: an empty [q] or an empty [status] adds nothing to the filter, so
    the listing answers as it does when the parameter is left out. *)
Theorem empty_parameter_is_absent {E : Externals} (db : option Store)
    (q status : option string) (sort : string) (page page_size : Z) :
  filter_query (Some "") (Some "") = []
  /\ filter_query (Some "") status = filter_query None status
  /\ filter_query q (Some "") = filter_query q None
  /\ list_orders db (Some "") status sort page page_size
     = list_orders db None status sort page page_size
  /\ list_orders db q (Some "") sort page page_size
     = list_orders db q None sort page page_size.
Proof. repeat split. Qed.

(** ** Lists *)

Lemma In_firstn {A : Type} (n : nat) (l : list A) (x : A) :
  In x (firstn n l) -> In x l.
Proof.
  intro H. rewrite <- (firstn_skipn n l). apply in_or_app. left. exact H.
Qed.

Lemma In_skipn {A : Type} (n : nat) (l : list A) (x : A) :
  In x (skipn n l) -> In x l.
Proof.
  intro H. rewrite <- (firstn_skipn n l). apply in_or_app. right. exact H.
Qed.

Lemma traverse_Forall2 {A B : Type} (f : A -> result B) (l : list A) :
  forall out, traverse f l = Ok out -> Forall2 (fun x y => f x = Ok y) l out.
Proof.
  induction l as [|x l IH]; simpl; intros out H.
  - inversion H. constructor.
  - destruct (f x) as [y|e] eqn:Hx; [|discriminate].
    destruct (traverse f l) as [ys|e]; [|discriminate].
    inversion H; subst. constructor; [exact Hx | apply IH; reflexivity].
Qed.

Lemma traverse_total {A B : Type} (f : A -> result B) (l : list A) :
  (forall x, In x l -> exists y, f x = Ok y) ->
  exists out, traverse f l = Ok out.
Proof.
  induction l as [|x l IH]; simpl; intro H.
  - eexists. reflexivity.
  - destruct (H x (or_introl eq_refl)) as [y Hy]. rewrite Hy.
    destruct IH as [ys Hys]; [intros z Hz; apply H; right; exact Hz|].
    rewrite Hys. eexists. reflexivity.
Qed.

Lemma window_slice (skip limit : Z) (l : list doc) :
  (1 <= limit)%Z ->
  window skip limit l =
  firstn (Z.to_nat limit) (skipn (Z.to_nat skip) l).
Proof.
  intro H. unfold window.
  destruct (Z.eqb_spec limit 0); [lia|]. rewrite Z.abs_eq by lia. reflexivity.
Qed.

(** ** Requests *)

Section StoreFacts.
Context {E : Externals}.

Lemma request_ok {A : Type} (c : StoreCall) (f : doc)
    (run : (doc -> bool) -> list doc -> result A * list doc)
    (s : Store) (p : doc -> bool) :
  reachable s = true -> compile_query (VDoc f) = Some p ->
  request c f run s =
  (fst (run p (docs s)),
   {| docs := snd (run p (docs s)); reachable := true;
      calls := c :: calls s |}).
Proof.
  intros Hup Hq. unfold request. rewrite Hup, Hq.
  destruct (run p (docs s)). reflexivity.
Qed.

Lemma request_down {A : Type} (c : StoreCall) (f : doc)
    (run : (doc -> bool) -> list doc -> result A * list doc) (s : Store) :
  reachable s = false ->
  request c f run s =
  (Raise (StoreError "server unreachable"),
   {| docs := docs s; reachable := false; calls := c :: calls s |}).
Proof. intro Hup. unfold request. rewrite Hup. reflexivity. Qed.

(** The filter on an identifier. *)
Lemma compile_id_filter (o : ObjectId) :
  compile_query (VDoc [("_id", VObjectId o)]) =
  Some (fun d => field_is_id "_id" o d && true).
Proof. reflexivity. Qed.

Lemma serialize_fresh_has_id (d : doc) :
  has_id d = true -> exists out, serialize_fresh d = Ok out.
Proof.
  unfold has_id. destruct (dict_get "_id" d) as [v|] eqn:Hid; [|discriminate].
  intros _. eexists. apply serialize_fresh_present. exact Hid.
Qed.

End StoreFacts.

(** ** The listing *)

(** C1: with the store reachable and accepting the filter and the sort
    key, the listing of page [number] (at least 1) with a page size [size]
    between 1 and 100 returns the records of the filtered and ordered
    sequence [full] from offset [(number - 1) * size] on, [size] of them at
    most, each serialized, in order; [total] counts every record that
    matches the filter, whatever the page. *)
Theorem list_orders_page {E : Externals} (s : Store) (q status : option string)
    (sort : string) (number size : Z) (p : doc -> bool) (full : list doc)
    (Hsort : sort_permutes)
    (Hup : reachable s = true)
    (Hq : compile_query (VDoc (filter_query q status)) = Some p)
    (Hfull : sort_docs (sort_field_of sort) (direction_of sort)
               (filter p (docs s)) = Some full)
    (Hids : forallb has_id (docs s) = true)
    (Hpage : (1 <= number)%Z) (Hsize : (1 <= size <= 100)%Z) :
  let slice :=
    firstn (Z.to_nat size) (skipn (Z.to_nat ((number - 1) * size)) full) in
  exists out s',
    list_orders (Some s) q status sort number size = (Ok out, Some s')
    /\ Forall2 (fun d item => serialize_fresh d = Ok item) slice (items out)
    /\ (List.length (items out) <= Z.to_nat size)%nat
    /\ total out = Z.of_nat (List.length (filter p (docs s)))
    /\ page out = number
    /\ page_size out = size
    /\ docs s' = docs s.
Proof.
  intros slice.
  assert (Hall : forall d, In d slice -> exists item, serialize_fresh d = Ok item).
  { intros d Hd. apply serialize_fresh_has_id.
    apply In_firstn, In_skipn in Hd.
    apply (Permutation_in _ (Hsort _ _ _ _ Hfull)) in Hd.
    apply filter_In in Hd. destruct Hd as [Hd _].
    rewrite forallb_forall in Hids. apply Hids. exact Hd. }
  destruct (traverse_total _ _ Hall) as [out Hout].
  unfold list_orders, with_db, bind, count_documents.
  rewrite (request_ok _ _ _ s p Hup Hq). cbn [fst snd].
  unfold ret at 1. unfold lift at 1. unfold cursor_skip.
  destruct (Z.ltb_spec ((number - 1) * size) 0) as [Hneg|_]; [nia|].
  unfold ret at 1. unfold fetch.
  cbn [c_filter c_sort c_skip c_limit cursor_limit cursor_sort find].
  erewrite request_ok; [|reflexivity|exact Hq]. cbn [docs calls].
  rewrite Hfull. cbn [fst snd]. rewrite window_slice by lia. fold slice.
  unfold lift. rewrite Hout. unfold ret.
  eexists. eexists. split; [reflexivity|]. cbn [items total page page_size docs].
  split; [apply traverse_Forall2; exact Hout|].
  split.
  { apply traverse_Forall2, Forall2_length in Hout. rewrite <- Hout.
    unfold slice. apply firstn_le_length. }
  repeat split.
Qed.

Lemma reference_insert_permutes (field : string) (direction : Z) (d : doc)
    (l : list doc) :
  Permutation (Reference.insert_sorted field direction d l) (d :: l).
Proof.
  induction l as [|x l IH]; simpl.
  - apply Permutation_refl.
  - destruct (Reference.before field direction d x).
    + apply Permutation_refl.
    + apply perm_trans with (x :: d :: l).
      * apply perm_skip. exact IH.
      * apply perm_swap.
Qed.

Lemma reference_sort_permutes : sort_permutes (E := Reference.externals).
Proof.
  intros field direction l ordered. cbn [sort_docs Reference.externals].
  unfold Reference.sort_docs. destruct (String.eqb field ""); [discriminate|].
  intro H. inversion H; subst. clear H.
  induction l as [|d l IH]; simpl.
  - apply perm_nil.
  - apply perm_trans with (d :: fold_right
                                  (Reference.insert_sorted field direction) [] l).
    + apply reference_insert_permutes.
    + apply perm_skip. exact IH.
Qed.

Lemma list_orders_page_witness :
  exists out s',
    list_orders (E := Reference.externals) (Some Demo.store) None None
      "order_number" 2 2 = (Ok out, Some s')
    /\ (List.length (items out) <= 2)%nat
    /\ total out = 3%Z.
Proof.
  destruct (list_orders_page (E := Reference.externals) Demo.store None None
              "order_number" 2 2 (fun _ => true) Demo.by_number
              reference_sort_permutes
              eq_refl eq_refl eq_refl eq_refl ltac:(lia) ltac:(lia))
    as [out [s' [Hrun [_ [Hlen [Htotal _]]]]]].
  exists out, s'. split; [exact Hrun|]. split; [exact Hlen | exact Htotal].
Defined.

(** ** Fetching and updating one order *)

Lemma update_first_split (p : doc -> bool) (g : doc -> doc)
    (before after : list doc) (d : doc) :
  forallb (fun x => negb (p x)) before = true -> p d = true ->
  update_first p g (before ++ d :: after) = Some (before ++ g d :: after).
Proof.
  intros Hb Hd. induction before as [|x before IH]; simpl in *.
  - rewrite Hd. reflexivity.
  - apply andb_true_iff in Hb. destruct Hb as [Hx Hb].
    apply negb_true_iff in Hx. rewrite Hx, (IH Hb). reflexivity.
Qed.

Lemma hd_filter_split (p : doc -> bool) (before after : list doc) (d : doc) :
  forallb (fun x => negb (p x)) before = true -> p d = true ->
  hd_error (filter p (before ++ d :: after)) = Some d.
Proof.
  intros Hb Hd. induction before as [|x before IH]; simpl in *.
  - rewrite Hd. reflexivity.
  - apply andb_true_iff in Hb. destruct Hb as [Hx Hb].
    apply negb_true_iff in Hx. rewrite Hx. exact (IH Hb).
Qed.

(** C4: with the store configured, an identifier that does not parse makes
    both the fetch and the status update raise the client error 400, and
    the store is left exactly as it was: no request was sent to it. *)
Theorem invalid_id_is_client_error {E : Externals} (s : Store)
    (order_id status : string) (now : datetime)
    (Hbad : parse_object_id order_id = None) :
  get_order (Some s) order_id
  = (Raise (HTTPException 400 "Invalid order id"), Some s)
  /\ update_order_status (Some s) order_id status now
     = (Raise (HTTPException 400 "Invalid order id"), Some s)
  /\ http_status (fst (get_order (Some s) order_id)) = 400%Z
  /\ http_status (fst (update_order_status (Some s) order_id status now))
     = 400%Z.
Proof.
  assert (Hget : get_order (Some s) order_id
                 = (Raise (HTTPException 400 "Invalid order id"), Some s)).
  { unfold get_order, with_db, bind, try_except, object_id.
    rewrite Hbad. reflexivity. }
  assert (Hupd : update_order_status (Some s) order_id status now
                 = (Raise (HTTPException 400 "Invalid order id"), Some s)).
  { unfold update_order_status, with_db, bind, try_except, object_id.
    rewrite Hbad. reflexivity. }
  rewrite Hget, Hupd. repeat split.
Qed.

Lemma invalid_id_is_client_error_witness :
  get_order (E := Reference.externals) (Some Demo.store) "not-an-id"
  = (Raise (HTTPException 400 "Invalid order id"), Some Demo.store).
Proof.
  exact (proj1 (invalid_id_is_client_error (E := Reference.externals)
                  Demo.store "not-an-id" "delivered" Demo.later eq_refl)).
Defined.

(** C5 does not hold of the fetch: the lookup sits inside the [try] that
    guards the parsing of the identifier, so a failure of the store during
    the lookup is answered 400.  The status update, which parses first and
    asks the store outside the [try], answers 500 in the same situation. *)
Theorem get_order_store_failure {E : Externals} (s : Store) (order_id : string)
    (oid : ObjectId) (status : string) (now : datetime)
    (Hparse : parse_object_id order_id = Some oid)
    (Hdown : reachable s = false) :
  get_order (Some s) order_id
  = (Raise (HTTPException 400 "Invalid order id"),
     Some {| docs := docs s; reachable := false;
             calls := CallFindOne [("_id", VObjectId oid)] :: calls s |})
  /\ http_status (fst (get_order (Some s) order_id)) = 400%Z
  /\ http_status (fst (update_order_status (Some s) order_id status now))
     = 500%Z.
Proof.
  assert (Hget : get_order (Some s) order_id
            = (Raise (HTTPException 400 "Invalid order id"),
               Some {| docs := docs s; reachable := false;
                       calls := CallFindOne [("_id", VObjectId oid)]
                                :: calls s |})).
  { unfold get_order, with_db, bind, try_except, object_id, find_one.
    rewrite Hparse. unfold ret at 1. rewrite request_down by exact Hdown.
    reflexivity. }
  split; [exact Hget|]. split; [rewrite Hget; reflexivity|].
  unfold update_order_status, with_db, bind, try_except, object_id, update_one.
  rewrite Hparse. unfold ret at 1. rewrite request_down by exact Hdown.
  reflexivity.
Qed.

Lemma get_order_store_failure_witness :
  http_status
    (fst (get_order (E := Reference.externals) (Some Demo.store_down)
            "665f1c2ab7e4d90012345602")) = 400%Z.
Proof.
  exact (proj1 (proj2
           (get_order_store_failure (E := Reference.externals)
              Demo.store_down "665f1c2ab7e4d90012345602" Demo.oid2
              "delivered" Demo.later eq_refl eq_refl))).
Defined.

Lemma forallb_pointwise {A : Type} (f g : A -> bool) (l : list A) :
  (forall x, f x = g x) -> forallb f l = forallb g l.
Proof.
  intro H. induction l as [|x l IH]; simpl; [reflexivity|].
  rewrite H, IH. reflexivity.
Qed.

(** C6: with the store reachable, the status update of an order that is
    there (the first record with the identifier) assigns [status], to the
    string given, whatever it is, and [updated_at], to the reading of the
    clock, in that record; every other field of the record and every other
    record stay as they were.  The answer is the changed record,
    serialized. *)
Theorem update_order_status_frame {E : Externals} (s : Store)
    (order_id status : string) (now : datetime) (oid : ObjectId)
    (before after : list doc) (d : doc)
    (Hup : reachable s = true)
    (Hparse : parse_object_id order_id = Some oid)
    (Hdocs : docs s = before ++ d :: after)
    (Hfirst : forallb (fun x => negb (field_is_id "_id" oid x)) before = true)
    (Hd : field_is_id "_id" oid d = true) :
  exists d' out s',
    update_order_status (Some s) order_id status now
    = (Ok (Some out), Some s')
    /\ docs s' = before ++ d' :: after
    /\ dict_get "status" d' = Some (VStr status)
    /\ dict_get "updated_at" d' = Some (VDatetime now)
    /\ (forall k, k <> "status" -> k <> "updated_at" ->
        dict_get k d' = dict_get k d)
    /\ serialize_fresh d' = Ok out.
Proof.
  set (d' := dict_set "updated_at" (VDatetime now)
               (dict_set "status" (VStr status) d)).
  set (p := fun x : doc => field_is_id "_id" oid x && true).
  assert (Hother : forall k, k <> "status" -> k <> "updated_at" ->
            dict_get k d' = dict_get k d).
  { intros k H1 H2. unfold d'. rewrite !dict_get_set.
    destruct (String.eqb_spec k "updated_at"); [contradiction|].
    destruct (String.eqb_spec k "status"); [contradiction|]. reflexivity. }
  assert (Hid' : dict_get "_id" d' = dict_get "_id" d)
    by (apply Hother; discriminate).
  assert (Hpb : forallb (fun x => negb (p x)) before = true).
  { rewrite <- Hfirst. apply forallb_pointwise. intro x. unfold p.
    rewrite andb_true_r. reflexivity. }
  assert (Hpd : p d = true) by (unfold p; rewrite Hd; reflexivity).
  assert (Hpd' : p d' = true).
  { unfold p, field_is_id. rewrite Hid'. fold (field_is_id "_id" oid d).
    rewrite Hd. reflexivity. }
  assert (Hhas : exists v, dict_get "_id" d' = Some v).
  { rewrite Hid'. unfold field_is_id in Hd.
    destruct (dict_get "_id" d) as [v|]; [eexists; reflexivity | discriminate]. }
  destruct Hhas as [v Hv].
  exists d', (serialize_body d' v).
  unfold update_order_status, with_db, bind, try_except, object_id.
  rewrite Hparse. unfold ret at 1. unfold update_one.
  rewrite (request_ok _ _ _ s p Hup (compile_id_filter oid)).
  cbn [dict_get String.eqb Ascii.eqb Bool.eqb fst snd].
  rewrite Hdocs.
  rewrite (update_first_split p _ before after d Hpb Hpd).
  cbn [fst snd Z.eqb]. unfold find_one.
  erewrite request_ok; [|reflexivity|apply compile_id_filter].
  cbn [fst snd docs calls]. fold p.
  change (apply_set [("status", VStr status); ("updated_at", VDatetime now)] d)
    with d'.
  rewrite (hd_filter_split p before after d' Hpb Hpd').
  unfold lift, serialize_fresh_opt.
  rewrite (serialize_fresh_present d' v Hv).
  eexists. split; [reflexivity|]. cbn [docs].
  split; [reflexivity|].
  split; [unfold d'; rewrite !dict_get_set; reflexivity|].
  split; [unfold d'; rewrite !dict_get_set; reflexivity|].
  split; [exact Hother | reflexivity].
Qed.

Lemma update_order_status_frame_witness :
  exists d' out s',
    update_order_status (E := Reference.externals) (Some Demo.store)
      "665f1c2ab7e4d90012345602" "delivered" Demo.later
    = (Ok (Some out), Some s')
    /\ docs s' = [Demo.ord1001; d'; Demo.ord1003]
    /\ dict_get "status" d' = Some (VStr "delivered")
    /\ dict_get "updated_at" d' = Some (VDatetime Demo.later)
    /\ dict_get "created_at" d' = Some (VDatetime Demo.seeded_at).
Proof.
  destruct (update_order_status_frame (E := Reference.externals) Demo.store
              "665f1c2ab7e4d90012345602" "delivered" Demo.later Demo.oid2
              [Demo.ord1001] [Demo.ord1003] Demo.ord1002
              eq_refl eq_refl eq_refl eq_refl eq_refl)
    as [d' [out [s' [Hrun [Hdocs [Hst [Hup [Hother _]]]]]]]].
  exists d', out, s'. split; [exact Hrun|]. split; [exact Hdocs|].
  split; [exact Hst|]. split; [exact Hup|].
  rewrite Hother by discriminate. reflexivity.
Defined.


(** * Further properties *)

(** ** The serializer and the other objects *)

Lemma length_assign (h : Heap) (r : ref) (d : doc) :
  List.length (assign h r d) = List.length h.
Proof.
  revert r. induction h as [|x h IH]; intros [|r]; simpl; try reflexivity.
  f_equal. apply IH.
Qed.

Lemma keys_remove (k : string) (d : doc) :
  keys (dict_remove k d) = filter (fun x => negb (String.eqb k x)) (keys d).
Proof.
  induction d as [|[k0 v0] d IH]; simpl.
  - reflexivity.
  - destruct (String.eqb k k0); simpl; [exact IH | f_equal; exact IH].
Qed.

(** X1: [serialize_id] touches the one dictionary it is given: whatever the
    argument and whatever the outcome, the heap keeps its size and every
    other object is as it was. *)
Theorem serialize_id_frame {E : Externals} (h : Heap) (doc : option ref) :
  List.length (snd (serialize_id doc h)) = List.length h
  /\ forall r', Some r' <> doc ->
       nth_error (snd (serialize_id doc h)) r' = nth_error h r'.
Proof.
  destruct doc as [r|]; [|split; reflexivity].
  destruct (nth_error h r) as [d|] eqn:Hr.
  - destruct d as [|kv d].
    + rewrite (serialize_id_empty h r Hr). split; reflexivity.
    + destruct (dict_get "_id" (kv :: d)) as [v|] eqn:Hid.
      * rewrite (serialize_id_present h r _ v Hr Hid). cbn [snd]. split.
        -- apply length_assign.
        -- intros r' Hne. apply nth_error_assign_other. congruence.
      * rewrite (serialize_id_missing h r _ Hr ltac:(discriminate) Hid).
        split; reflexivity.
  - assert (Hd : deref h r = []).
    { unfold deref. apply nth_overflow. apply nth_error_None. exact Hr. }
    unfold serialize_id, bind, dict_items. rewrite Hd. split; reflexivity.
Qed.

(** X2: on a record with [_id] and distinct keys, the serialized record has
    the fields of the record in their order, [_id] left out, and [id] last;
    a field [id] that the record already had keeps its place and loses its
    value to the string of [_id].  The keys stay distinct. *)
Theorem serialize_id_keys {E : Externals} (d : doc) (v : value)
    (Hu : keys_unique d = true) (Hid : dict_get "_id" d = Some v) :
  exists out,
    serialize_fresh d = Ok out
    /\ keys out =
       (let rest := filter (fun k => negb (String.eqb "_id" k)) (keys d) in
        match dict_get "id" d with
        | Some _ => rest
        | None => rest ++ ["id"]
        end)
    /\ dict_get "id" out = Some (VStr (py_str v))
    /\ keys_unique out = true.
Proof.
  exists (serialize_body d v). split; [apply serialize_fresh_present, Hid|].
  split; [|split].
  - rewrite keys_serialize_body. cbv zeta. rewrite <- keys_remove.
    destruct (dict_get "id" d) as [w|] eqn:Hw.
    + apply keys_set_present. apply In_keys_remove. split; [|discriminate].
      apply dict_get_In_keys. congruence.
    + apply keys_set_absent. intro Hin. apply In_keys_remove in Hin.
      destruct Hin as [Hin _]. apply dict_get_In_keys in Hin. congruence.
  - rewrite serialize_body_closed by exact Hu. unfold serialized.
    rewrite dict_get_map_render, dict_get_set. reflexivity.
  - apply keys_unique_NoDup. rewrite keys_serialize_body.
    apply NoDup_keys_set, NoDup_keys_remove, keys_unique_NoDup, Hu.
Qed.

Lemma serialize_id_keys_witness :
  exists out,
    serialize_fresh (E := Reference.externals) Demo.ord1002 = Ok out
    /\ keys out =
       ["order_number"; "customer_name"; "email"; "status"; "total_amount";
        "items"; "created_at"; "updated_at"; "id"].
Proof.
  destruct (serialize_id_keys (E := Reference.externals) Demo.ord1002
              (VObjectId Demo.oid2) eq_refl eq_refl)
    as [out [Hrun [Hkeys _]]].
  exists out. split; [exact Hrun | exact Hkeys].
Defined.

(** ** A sort parameter of dashes *)

Lemma lstrip_dashes (n : nat) : lstrip "-" (dashes n) = "".
Proof. induction n as [|n IH]; [reflexivity | exact IH]. Qed.

(** X3: the sort field is empty exactly when the sort parameter is made of
    dashes only (the empty parameter included); with at least one dash the
    order asked of the store is descending, by a field without a name. *)
Theorem sort_parameter_of_dashes (sort : string) :
  (sort_field_of sort = "" <-> sort = dashes (String.length sort))
  /\ (sort_field_of sort = "" -> sort <> "" -> direction_of sort = (-1)%Z).
Proof.
  assert (Hiff : sort_field_of sort = "" <-> sort = dashes (String.length sort)).
  { unfold sort_field_of. induction sort as [|c s IH].
    - split; reflexivity.
    - rewrite lstrip_dash_cons. cbn [String.length dashes].
      destruct (Ascii.eqb_spec c "-") as [->|Hne].
      + rewrite IH. split; [intros <-; reflexivity|].
        intro H. injection H as H. exact H.
      + split; [discriminate|]. intro H. injection H as Hc _. congruence. }
  split; [exact Hiff|].
  intros Hempty Hne. apply Hiff in Hempty.
  destruct sort as [|c s]; [congruence|]. cbn [String.length dashes] in Hempty.
  injection Hempty as -> _. unfold direction_of.
  rewrite (proj2 (startswith_dash _)); [reflexivity | eexists; reflexivity].
Qed.

Lemma sort_parameter_of_dashes_witness :
  direction_of "---" = (-1)%Z.
Proof.
  apply (proj2 (sort_parameter_of_dashes "---")); [reflexivity | discriminate].
Defined.

(** ** The listing and the store *)

Section ListingFacts.
Context {E : Externals}.

(** A request that only reads leaves the documents alone and is logged. *)
Lemma request_reads {A : Type} (c : StoreCall) (f : doc)
    (run : (doc -> bool) -> list doc -> result A * list doc) (s : Store) :
  (forall p ds, snd (run p ds) = ds) ->
  docs (snd (request c f run s)) = docs s
  /\ reachable (snd (request c f run s)) = reachable s
  /\ calls (snd (request c f run s)) = c :: calls s.
Proof.
  intro Hrun. unfold request. destruct (reachable s) eqn:Hup.
  - destruct (compile_query (VDoc f)) as [p|].
    + specialize (Hrun p (docs s)). destruct (run p (docs s)) as [r ds].
      simpl in *. subst ds. repeat split.
    + repeat split.
  - repeat split.
Qed.

Lemma fetch_reads (c : Cursor) (s : Store) :
  docs (snd (fetch c s)) = docs s
  /\ reachable (snd (fetch c s)) = reachable s
  /\ calls (snd (fetch c s)) = CallFind c :: calls s.
Proof.
  apply request_reads. intros p ds. cbv zeta.
  destruct (c_sort c) as [[field direction]|]; [|reflexivity].
  destruct (sort_docs field direction (filter p ds)); reflexivity.
Qed.

(** The listing when everything goes well, in full. *)
Lemma list_orders_ok (s : Store) (q status : option string) (sort : string)
    (number size : Z) (p : doc -> bool) (full out : list doc) :
  reachable s = true ->
  compile_query (VDoc (filter_query q status)) = Some p ->
  sort_docs (sort_field_of sort) (direction_of sort) (filter p (docs s))
  = Some full ->
  (1 <= number)%Z -> (1 <= size)%Z ->
  traverse serialize_fresh
    (firstn (Z.to_nat size) (skipn (Z.to_nat ((number - 1) * size)) full))
  = Ok out ->
  list_orders (Some s) q status sort number size =
  (Ok {| items := out; page := number; page_size := size;
         total := Z.of_nat (List.length (filter p (docs s))) |},
   Some {| docs := docs s; reachable := true;
           calls := CallFind (page_cursor q status sort number size)
                    :: CallCountDocuments (filter_query q status)
                    :: calls s |}).
Proof.
  intros Hup Hq Hfull Hpage Hsize Hout.
  unfold list_orders, with_db, bind, count_documents.
  rewrite (request_ok _ _ _ s p Hup Hq). cbn [fst snd].
  unfold ret at 1. unfold lift at 1. unfold cursor_skip.
  destruct (Z.ltb_spec ((number - 1) * size) 0) as [Hneg|_]; [nia|].
  unfold ret at 1. unfold fetch.
  cbn [c_filter c_sort c_skip c_limit cursor_limit cursor_sort find].
  erewrite request_ok; [|reflexivity|exact Hq]. cbn [docs calls].
  rewrite Hfull. cbn [fst snd]. rewrite window_slice by lia.
  unfold lift. rewrite Hout. reflexivity.
Qed.

End ListingFacts.

Lemma nth_error_firstn_lt {A : Type} (n j : nat) (l : list A) :
  (j < n)%nat -> nth_error (firstn n l) j = nth_error l j.
Proof.
  revert j l. induction n as [|n IH]; intros j l Hj; [lia|].
  destruct l as [|x l]; [destruct j; reflexivity|].
  destruct j as [|j]; [reflexivity|]. simpl. apply IH. lia.
Qed.

Lemma nth_error_skipn_plus {A : Type} (k j : nat) (l : list A) :
  nth_error (skipn k l) j = nth_error l (k + j).
Proof.
  revert l. induction k as [|k IH]; intro l; [reflexivity|].
  destruct l as [|x l]; [destruct j; reflexivity|]. simpl. apply IH.
Qed.

Lemma Forall2_nth_error_left {A B : Type} (R : A -> B -> Prop)
    (l : list A) (l' : list B) :
  Forall2 R l l' ->
  forall j x, nth_error l j = Some x ->
    exists y, nth_error l' j = Some y /\ R x y.
Proof.
  induction 1 as [|a b l l' Hab _ IH]; intros j x Hj.
  - destruct j; discriminate.
  - destruct j as [|j]; simpl in *.
    + inversion Hj; subst. exists b. split; [reflexivity | exact Hab].
    + apply IH. exact Hj.
Qed.

Lemma filter_all {A : Type} (l : list A) : filter (fun _ => true) l = l.
Proof. induction l as [|x l IH]; simpl; [reflexivity | f_equal; exact IH]. Qed.

Lemma skipn_past {A : Type} (k : nat) (l : list A) :
  (List.length l <= k)%nat -> skipn k l = [].
Proof.
  revert k. induction l as [|x l IH]; intros k Hk; [destruct k; reflexivity|].
  destruct k as [|k]; simpl in *; [lia|]. apply IH. lia.
Qed.

Lemma count_reads {E : Externals} (f : doc) (s : Store) :
  docs (snd (count_documents f s)) = docs s
  /\ reachable (snd (count_documents f s)) = reachable s
  /\ calls (snd (count_documents f s)) = CallCountDocuments f :: calls s.
Proof. apply request_reads. intros p ds. reflexivity. Qed.

(** A page of well-formed documents serializes. *)
Lemma page_serializes {E : Externals} (ds full : list doc) (field : string)
    (direction : Z) (k n : nat) :
  sort_permutes -> sort_docs field direction ds = Some full ->
  (forall d, In d ds -> has_id d = true) ->
  exists out, traverse serialize_fresh (firstn n (skipn k full)) = Ok out.
Proof.
  intros Hsort Hfull Hids. apply traverse_total. intros d Hd.
  apply serialize_fresh_has_id. apply Hids.
  apply (Permutation_in _ (Hsort _ _ _ _ Hfull)).
  apply In_firstn, In_skipn in Hd. exact Hd.
Qed.

(** X4: the listing only reads.  Whatever the parameters and whatever comes
    of it, the documents of the store are the ones that were there, and the
    store was asked once, for the count, or twice, for the count and then
    for the page, with the skip [(page - 1) * page_size] and the limit
    [page_size]. *)
Theorem list_orders_reads_only {E : Externals} (s : Store)
    (q status : option string) (sort : string) (number size : Z) :
  exists s',
    snd (list_orders (Some s) q status sort number size) = Some s'
    /\ docs s' = docs s
    /\ reachable s' = reachable s
    /\ (logged s s' [CallCountDocuments (filter_query q status)]
        \/ logged s s' [CallFind (page_cursor q status sort number size);
                        CallCountDocuments (filter_query q status)]).
Proof.
  unfold list_orders, with_db, bind, logged.
  destruct (count_reads (filter_query q status) s) as [Hd1 [Hr1 Hc1]].
  destruct (count_documents (filter_query q status) s) as [[n|e] s1];
    cbn [snd] in *.
  - unfold ret at 1. unfold lift at 1. unfold cursor_skip.
    destruct ((number - 1) * size <? 0)%Z.
    + exists s1. repeat split; try assumption. left. exact Hc1.
    + unfold ret at 1.
      change (cursor_limit _ size) with (page_cursor q status sort number size).
      destruct (fetch_reads (page_cursor q status sort number size) s1)
        as [Hd2 [Hr2 Hc2]].
      destruct (fetch (page_cursor q status sort number size) s1)
        as [[ds|e] s2]; cbn [snd] in *.
      * unfold lift. destruct (traverse serialize_fresh ds);
          (exists s2; split; [reflexivity|]; split; [congruence|];
           split; [congruence|]; right; rewrite Hc2, Hc1; reflexivity).
      * exists s2. split; [reflexivity|]. split; [congruence|].
        split; [congruence|]. right. rewrite Hc2, Hc1. reflexivity.
  - exists s1. repeat split; try assumption. left. exact Hc1.
Qed.

(** X5: when the server cannot be reached the listing fails on its first
    request, the count: the answer is 500 and the page is never asked for. *)
Theorem list_orders_unreachable {E : Externals} (s : Store)
    (q status : option string) (sort : string) (number size : Z)
    (Hdown : reachable s = false) :
  list_orders (Some s) q status sort number size
  = (Raise (StoreError "server unreachable"),
     Some {| docs := docs s; reachable := false;
             calls := CallCountDocuments (filter_query q status) :: calls s |})
  /\ http_status (fst (list_orders (Some s) q status sort number size))
     = 500%Z.
Proof.
  assert (H : list_orders (Some s) q status sort number size
    = (Raise (StoreError "server unreachable"),
       Some {| docs := docs s; reachable := false;
               calls := CallCountDocuments (filter_query q status)
                        :: calls s |})).
  { unfold list_orders, with_db, bind, count_documents.
    rewrite request_down by exact Hdown. reflexivity. }
  rewrite H. split; reflexivity.
Qed.

Lemma list_orders_unreachable_witness :
  http_status
    (fst (list_orders (E := Reference.externals) (Some Demo.store_down)
            (Some "maya") None "-created_at" 1 10)) = 500%Z.
Proof.
  exact (proj2 (list_orders_unreachable (E := Reference.externals)
                  Demo.store_down (Some "maya") None "-created_at" 1 10
                  eq_refl)).
Defined.

(** X6: a search term that the store does not accept as a regular
    expression makes the listing fail with 500 on the count; nothing is
    returned and no document changes. *)
Theorem list_orders_bad_pattern {E : Externals} (s : Store) (q : string)
    (status : option string) (sort : string) (number size : Z)
    (Hq : q <> "") (Hbad : regex_compile q "i" = None)
    (Hup : reachable s = true) :
  list_orders (Some s) (Some q) status sort number size
  = (Raise (StoreError "query rejected"),
     Some {| docs := docs s; reachable := true;
             calls := CallCountDocuments (filter_query (Some q) status)
                      :: calls s |})
  /\ http_status (fst (list_orders (Some s) (Some q) status sort number size))
     = 500%Z.
Proof.
  assert (H : list_orders (Some s) (Some q) status sort number size
    = (Raise (StoreError "query rejected"),
       Some {| docs := docs s; reachable := true;
               calls := CallCountDocuments (filter_query (Some q) status)
                        :: calls s |})).
  { unfold list_orders, with_db, bind, count_documents, request.
    rewrite Hup, (filter_query_rejected q status Hq Hbad). reflexivity. }
  rewrite H. split; reflexivity.
Qed.

Lemma list_orders_bad_pattern_witness :
  http_status
    (fst (list_orders (E := Reference.externals) (Some Demo.store)
            (Some "(") None "-created_at" 1 10)) = 500%Z.
Proof.
  exact (proj2 (list_orders_bad_pattern (E := Reference.externals)
                  Demo.store "(" None "-created_at" 1 10
                  ltac:(discriminate) eq_refl eq_refl)).
Defined.

(** X7: a page past the end of the sequence is no error: the listing
    answers with no items and with the total of the matching records. *)
Theorem list_orders_past_the_end {E : Externals} (s : Store)
    (q status : option string) (sort : string) (number size : Z)
    (p : doc -> bool) (full : list doc)
    (Hup : reachable s = true)
    (Hq : compile_query (VDoc (filter_query q status)) = Some p)
    (Hfull : sort_docs (sort_field_of sort) (direction_of sort)
               (filter p (docs s)) = Some full)
    (Hpage : (1 <= number)%Z) (Hsize : (1 <= size)%Z)
    (Hpast : (Z.of_nat (List.length full) <= (number - 1) * size)%Z) :
  exists s',
    list_orders (Some s) q status sort number size
    = (Ok {| items := []; page := number; page_size := size;
             total := Z.of_nat (List.length (filter p (docs s))) |},
       Some s').
Proof.
  eexists. apply list_orders_ok with (full := full); try assumption.
  rewrite skipn_past by lia. rewrite firstn_nil. reflexivity.
Qed.

Lemma list_orders_past_the_end_witness :
  exists s',
    list_orders (E := Reference.externals) (Some Demo.store) None None
      "order_number" 3 2
    = (Ok {| items := []; page := 3; page_size := 2; total := 3 |}, Some s').
Proof.
  exact (list_orders_past_the_end (E := Reference.externals) Demo.store
           None None "order_number" 3 2 (fun _ => true) Demo.by_number
           eq_refl eq_refl eq_refl ltac:(lia) ltac:(lia) ltac:(simpl; lia)).
Defined.

(** X8: without a search term and without a status, the first page of a
    size that holds the whole collection returns every document, serialized,
    in the order the store gives them, and the total is their number. *)
Theorem list_orders_everything {E : Externals} (s : Store) (sort : string)
    (size : Z) (full : list doc)
    (Hsort : sort_permutes)
    (Hup : reachable s = true)
    (Hfull : sort_docs (sort_field_of sort) (direction_of sort) (docs s)
             = Some full)
    (Hids : forallb has_id (docs s) = true)
    (Hsize : (1 <= size)%Z)
    (Hfits : (Z.of_nat (List.length (docs s)) <= size)%Z) :
  exists out s',
    list_orders (Some s) None None sort 1 size = (Ok out, Some s')
    /\ Forall2 (fun d item => serialize_fresh d = Ok item) full (items out)
    /\ List.length (items out) = List.length (docs s)
    /\ total out = Z.of_nat (List.length (docs s)).
Proof.
  assert (Hlen : List.length full = List.length (docs s))
    by (apply Permutation_length, (Hsort _ _ _ _ Hfull)).
  assert (Hslice : firstn (Z.to_nat size) (skipn (Z.to_nat ((1 - 1) * size)) full)
                   = full).
  { change ((1 - 1) * size)%Z with 0%Z. simpl skipn.
    apply firstn_all2. lia. }
  destruct (page_serializes (docs s) full _ _ (Z.to_nat ((1 - 1) * size))
              (Z.to_nat size) Hsort Hfull) as [out Hout].
  { intros d Hd. rewrite forallb_forall in Hids. apply Hids. exact Hd. }
  assert (Hrun := list_orders_ok s None None sort 1 size (fun _ => true)
                    full out Hup eq_refl).
  rewrite filter_all in Hrun. specialize (Hrun Hfull ltac:(lia) Hsize Hout).
  do 2 eexists. split; [exact Hrun|]. cbn [items total].
  rewrite Hslice in Hout. apply traverse_Forall2 in Hout.
  split; [exact Hout|]. split; [|reflexivity].
  rewrite <- (Forall2_length Hout). exact Hlen.
Qed.

Lemma list_orders_everything_witness :
  exists out s',
    list_orders (E := Reference.externals) (Some Demo.store) None None
      "order_number" 1 10 = (Ok out, Some s')
    /\ List.length (items out) = 3%nat
    /\ total out = 3%Z.
Proof.
  destruct (list_orders_everything (E := Reference.externals) Demo.store
              "order_number" 10 Demo.by_number reference_sort_permutes
              eq_refl eq_refl eq_refl ltac:(lia) ltac:(simpl; lia))
    as [out [s' [Hrun [_ [Hlen Htotal]]]]].
  exists out, s'. split; [exact Hrun|]. split; [exact Hlen | exact Htotal].
Defined.

(** X9: the item at place [j] of page [number] is the serialized record at
    place [(number - 1) * size + j] of the filtered and ordered sequence:
    the pages lie one after the other on the sequence, without a gap and
    without an overlap. *)
Theorem list_orders_position {E : Externals} (s : Store)
    (q status : option string) (sort : string) (number size : Z)
    (p : doc -> bool) (full : list doc) (j : nat) (d : doc)
    (Hsort : sort_permutes)
    (Hup : reachable s = true)
    (Hq : compile_query (VDoc (filter_query q status)) = Some p)
    (Hfull : sort_docs (sort_field_of sort) (direction_of sort)
               (filter p (docs s)) = Some full)
    (Hids : forallb has_id (docs s) = true)
    (Hpage : (1 <= number)%Z) (Hsize : (1 <= size)%Z)
    (Hj : (j < Z.to_nat size)%nat)
    (Hd : nth_error full (Z.to_nat ((number - 1) * size) + j) = Some d) :
  exists out s' item,
    list_orders (Some s) q status sort number size = (Ok out, Some s')
    /\ nth_error (items out) j = Some item
    /\ serialize_fresh d = Ok item.
Proof.
  destruct (page_serializes (filter p (docs s)) full _ _
              (Z.to_nat ((number - 1) * size)) (Z.to_nat size) Hsort Hfull)
    as [out Hout].
  { intros x Hx. apply filter_In in Hx. destruct Hx as [Hx _].
    rewrite forallb_forall in Hids. apply Hids. exact Hx. }
  assert (Hrun := list_orders_ok s q status sort number size p full out
                    Hup Hq Hfull Hpage Hsize Hout).
  apply traverse_Forall2 in Hout.
  destruct (Forall2_nth_error_left _ _ _ Hout j d) as [item [Hitem Hser]].
  { rewrite nth_error_firstn_lt by exact Hj.
    rewrite nth_error_skipn_plus. exact Hd. }
  do 3 eexists. split; [exact Hrun|]. split; [exact Hitem | exact Hser].
Qed.

Lemma list_orders_position_witness :
  exists out s' item,
    list_orders (E := Reference.externals) (Some Demo.store) None None
      "order_number" 2 2 = (Ok out, Some s')
    /\ nth_error (items out) 0 = Some item
    /\ serialize_fresh (E := Reference.externals) Demo.ord1003 = Ok item.
Proof.
  exact (list_orders_position (E := Reference.externals) Demo.store None None
           "order_number" 2 2 (fun _ => true) Demo.by_number 0 Demo.ord1003
           reference_sort_permutes eq_refl eq_refl eq_refl eq_refl
           ltac:(lia) ltac:(lia) ltac:(simpl; lia) eq_refl).
Defined.

(** ** One order and the store *)

Lemma field_is_id_spec (o : ObjectId) (d : doc) :
  field_is_id "_id" o d = true <-> dict_get "_id" d = Some (VObjectId o).
Proof.
  unfold field_is_id. destruct (dict_get "_id" d) as [[]|];
    try (split; [discriminate | intro H; discriminate H || congruence]).
  destruct o as [x], o0 as [y]. simpl. rewrite String.eqb_eq.
  split; intro H; congruence.
Qed.

Lemma filter_nothing {A : Type} (p : A -> bool) (l : list A) :
  forallb (fun x => negb (p x)) l = true -> filter p l = [].
Proof.
  induction l as [|x l IH]; simpl; [reflexivity|].
  intro H. apply andb_true_iff in H. destruct H as [Hx Hl].
  apply negb_true_iff in Hx. rewrite Hx. exact (IH Hl).
Qed.

Lemma update_first_nothing (p : doc -> bool) (g : doc -> doc) (l : list doc) :
  forallb (fun x => negb (p x)) l = true -> update_first p g l = None.
Proof.
  induction l as [|x l IH]; simpl; [reflexivity|].
  intro H. apply andb_true_iff in H. destruct H as [Hx Hl].
  apply negb_true_iff in Hx. rewrite Hx, (IH Hl). reflexivity.
Qed.

(** What [update_first] does, when it does something. *)
Lemma update_first_Some (p : doc -> bool) (g : doc -> doc) (l l' : list doc) :
  update_first p g l = Some l' ->
  exists before d after,
    l = before ++ d :: after /\ l' = before ++ g d :: after
    /\ forallb (fun x => negb (p x)) before = true /\ p d = true.
Proof.
  revert l'. induction l as [|x l IH]; simpl; intros l' H; [discriminate|].
  destruct (p x) eqn:Hx.
  - inversion H; subst. exists [], x, l. repeat split. exact Hx.
  - destruct (update_first p g l) as [r|]; [|discriminate].
    inversion H; subst.
    destruct (IH r eq_refl) as [before [d [after [H1 [H2 [H3 H4]]]]]].
    exists (x :: before), d, after. subst. simpl. rewrite Hx.
    repeat split; assumption.
Qed.

Lemma dict_set_same (k : string) (v : value) (d : doc) :
  dict_get k d = Some v -> dict_set k v d = d.
Proof.
  induction d as [|[k0 v0] d IH]; simpl; [discriminate|].
  destruct (String.eqb_spec k k0) as [->|Hne].
  - intro H. inversion H. reflexivity.
  - intro H. f_equal. exact (IH H).
Qed.

(** The two assignments of the status update, on a document. *)
Lemma apply_set_status (status : string) (now : datetime) (d : doc) :
  apply_set [("status", VStr status); ("updated_at", VDatetime now)] d
  = dict_set "updated_at" (VDatetime now) (dict_set "status" (VStr status) d).
Proof. reflexivity. Qed.

Lemma apply_set_status_get (status : string) (now : datetime) (d : doc)
    (k : string) :
  dict_get k
    (apply_set [("status", VStr status); ("updated_at", VDatetime now)] d)
  = if String.eqb k "updated_at" then Some (VDatetime now)
    else if String.eqb k "status" then Some (VStr status)
    else dict_get k d.
Proof. rewrite apply_set_status, !dict_get_set. reflexivity. Qed.

Lemma apply_set_status_twice (status : string) (now : datetime) (d : doc) :
  let g := apply_set [("status", VStr status); ("updated_at", VDatetime now)] in
  g (g d) = g d.
Proof.
  intro g. unfold g at 1. rewrite apply_set_status.
  rewrite (dict_set_same "status" (VStr status) (g d)).
  - apply dict_set_same. unfold g. rewrite apply_set_status_get. reflexivity.
  - unfold g. rewrite apply_set_status_get. reflexivity.
Qed.

Section OneOrderFacts.
Context {E : Externals}.

Lemma find_one_run (s : Store) (oid : ObjectId) :
  reachable s = true ->
  find_one [("_id", VObjectId oid)] s
  = (Ok (hd_error (filter (fun d => field_is_id "_id" oid d && true) (docs s))),
     {| docs := docs s; reachable := true;
        calls := CallFindOne [("_id", VObjectId oid)] :: calls s |}).
Proof.
  intro Hup. unfold find_one.
  rewrite (request_ok _ _ _ s _ Hup (compile_id_filter oid)). reflexivity.
Qed.

Lemma find_one_reads (f : doc) (s : Store) :
  docs (snd (find_one f s)) = docs s
  /\ reachable (snd (find_one f s)) = reachable s
  /\ calls (snd (find_one f s)) = CallFindOne f :: calls s.
Proof. apply request_reads. intros p ds. reflexivity. Qed.

(** The fetch of an order that is there, in full. *)
Lemma get_order_run (s : Store) (order_id : string) (oid : ObjectId)
    (before after : list doc) (d : doc) (v : value) :
  reachable s = true ->
  parse_object_id order_id = Some oid ->
  docs s = before ++ d :: after ->
  forallb (fun x => negb (field_is_id "_id" oid x)) before = true ->
  field_is_id "_id" oid d = true ->
  dict_get "_id" d = Some v ->
  get_order (Some s) order_id
  = (Ok (serialize_body d v),
     Some {| docs := docs s; reachable := true;
             calls := CallFindOne [("_id", VObjectId oid)] :: calls s |}).
Proof.
  intros Hup Hparse Hdocs Hfirst Hd Hv.
  unfold get_order, with_db, bind, try_except, object_id.
  rewrite Hparse. unfold ret at 1. rewrite (find_one_run s oid Hup).
  assert (Hhd : hd_error (filter (fun x => field_is_id "_id" oid x && true)
                            (docs s)) = Some d).
  { rewrite Hdocs. apply hd_filter_split.
    - rewrite (forallb_pointwise _
                 (fun x => negb (field_is_id "_id" oid x)));
        [exact Hfirst | intro x; rewrite andb_true_r; reflexivity].
    - rewrite Hd. reflexivity. }
  rewrite Hhd. destruct d as [|kv d]; [discriminate Hv|]. cbn [is_empty].
  unfold lift. rewrite (serialize_fresh_present _ v Hv). reflexivity.
Qed.

(** The documents after a status update, whatever its outcome. *)
Lemma update_order_status_docs (s : Store) (order_id status : string)
    (now : datetime) :
  exists s',
    snd (update_order_status (Some s) order_id status now) = Some s'
    /\ reachable s' = reachable s
    /\ docs s' =
       match parse_object_id order_id with
       | None => docs s
       | Some oid =>
           if reachable s then
             match update_first (fun d => field_is_id "_id" oid d && true)
                     (apply_set [("status", VStr status);
                                 ("updated_at", VDatetime now)]) (docs s) with
             | Some ds => ds
             | None => docs s
             end
           else docs s
       end.
Proof.
  unfold update_order_status, with_db, bind, try_except, object_id.
  destruct (parse_object_id order_id) as [oid|].
  - unfold ret at 1. unfold update_one.
    destruct (reachable s) eqn:Hup.
    + rewrite (request_ok _ _ _ s _ Hup (compile_id_filter oid)).
      cbn [dict_get String.eqb Ascii.eqb Bool.eqb fst snd].
      destruct (update_first _ _ (docs s)) as [ds|]; cbn [fst snd Z.eqb].
      * destruct (find_one_reads [("_id", VObjectId oid)]
                    {| docs := ds; reachable := true;
                       calls := CallUpdateOne [("_id", VObjectId oid)]
                                  [("$set", VDoc [("status", VStr status);
                                                  ("updated_at", VDatetime now)])]
                                :: calls s |}) as [Hd [Hr _]].
        destruct (find_one _ _) as [[found|e] s2]; cbn [snd docs reachable] in *.
        -- unfold lift. destruct (serialize_fresh_opt found);
             (exists s2; repeat split; assumption).
        -- exists s2. repeat split; assumption.
      * eexists. repeat split.
    + rewrite request_down by exact Hup. eexists. repeat split.
  - unfold raise. exists s. repeat split.
Qed.

End OneOrderFacts.

(** X10: fetching with a well-formed identifier that no document carries
    answers 404 after one lookup, and the documents stay as they are. *)
Theorem get_order_not_found {E : Externals} (s : Store) (order_id : string)
    (oid : ObjectId)
    (Hup : reachable s = true)
    (Hparse : parse_object_id order_id = Some oid)
    (Hnone : forallb (fun x => negb (field_is_id "_id" oid x)) (docs s) = true) :
  get_order (Some s) order_id
  = (Raise (HTTPException 404 "Order not found"),
     Some {| docs := docs s; reachable := true;
             calls := CallFindOne [("_id", VObjectId oid)] :: calls s |}).
Proof.
  unfold get_order, with_db, bind, try_except, object_id.
  rewrite Hparse. unfold ret at 1. rewrite (find_one_run s oid Hup).
  rewrite filter_nothing; [reflexivity|].
  rewrite (forallb_pointwise _ (fun x => negb (field_is_id "_id" oid x)));
    [exact Hnone | intro x; rewrite andb_true_r; reflexivity].
Qed.

Lemma get_order_not_found_witness :
  http_status
    (fst (get_order (E := Reference.externals) (Some Demo.store)
            "665f1c2ab7e4d900123456ff")) = 404%Z.
Proof.
  rewrite (get_order_not_found (E := Reference.externals) Demo.store
             "665f1c2ab7e4d900123456ff"
             (mkObjectId "665f1c2ab7e4d900123456ff") eq_refl eq_refl eq_refl).
  reflexivity.
Defined.

(** X11: the fetch only reads.  Whatever the identifier and whatever comes
    of it, the documents of the store are the ones that were there; the
    store is not asked at all when the identifier does not parse, and once,
    for the document with that identifier, when it does. *)
Theorem get_order_reads_only {E : Externals} (s : Store) (order_id : string) :
  exists s',
    snd (get_order (Some s) order_id) = Some s'
    /\ docs s' = docs s
    /\ reachable s' = reachable s
    /\ match parse_object_id order_id with
       | None => s' = s
       | Some oid => logged s s' [CallFindOne [("_id", VObjectId oid)]]
       end.
Proof.
  unfold get_order, with_db, bind, try_except, object_id, logged.
  destruct (parse_object_id order_id) as [oid|].
  - unfold ret at 1.
    destruct (find_one_reads [("_id", VObjectId oid)] s) as [Hd [Hr Hc]].
    destruct (find_one [("_id", VObjectId oid)] s) as [[found|e] s1];
      cbn [snd] in *.
    + destruct found as [d|].
      * destruct (is_empty d); unfold raise, lift;
          (exists s1; repeat split; assumption).
      * exists s1. repeat split; assumption.
    + exists s1. repeat split; assumption.
  - exists s. repeat split.
Qed.

(** X12: the fetch of an order that is there returns the first document
    with the identifier, serialized: it has no [_id], and its [id] is the
    string of the identifier asked for. *)
Theorem get_order_found {E : Externals} (s : Store) (order_id : string)
    (oid : ObjectId) (before after : list doc) (d : doc)
    (Hup : reachable s = true)
    (Hparse : parse_object_id order_id = Some oid)
    (Hdocs : docs s = before ++ d :: after)
    (Hfirst : forallb (fun x => negb (field_is_id "_id" oid x)) before = true)
    (Hd : field_is_id "_id" oid d = true)
    (Hu : keys_unique d = true) :
  exists out s',
    get_order (Some s) order_id = (Ok out, Some s')
    /\ serialize_fresh d = Ok out
    /\ dict_get "id" out = Some (VStr (py_str (VObjectId oid)))
    /\ dict_get "_id" out = None.
Proof.
  assert (Hv : dict_get "_id" d = Some (VObjectId oid))
    by (apply field_is_id_spec; exact Hd).
  do 2 eexists. split; [|split; [|split]].
  - apply get_order_run with (before := before) (after := after) (d := d)
                             (oid := oid); eassumption.
  - apply serialize_fresh_present. exact Hv.
  - rewrite serialize_body_closed by exact Hu. unfold serialized.
    rewrite dict_get_map_render, dict_get_set. reflexivity.
  - apply serialize_body_no_id.
Qed.

Lemma get_order_found_witness :
  exists out s',
    get_order (E := Reference.externals) (Some Demo.store)
      "665F1C2AB7E4D90012345602" = (Ok out, Some s')
    /\ dict_get "id" out = Some (VStr "665f1c2ab7e4d90012345602").
Proof.
  destruct (get_order_found (E := Reference.externals) Demo.store
              "665F1C2AB7E4D90012345602" Demo.oid2
              [Demo.ord1001] [Demo.ord1003] Demo.ord1002
              eq_refl eq_refl eq_refl eq_refl eq_refl eq_refl)
    as [out [s' [Hrun [_ [Hid _]]]]].
  exists out, s'. split; [exact Hrun | exact Hid].
Defined.

(** X13: a status update for a well-formed identifier that no document
    carries answers 404; the store was asked to update and changed nothing,
    no document was added, and the record is not looked up afterwards. *)
Theorem update_order_status_not_found {E : Externals} (s : Store)
    (order_id status : string) (now : datetime) (oid : ObjectId)
    (Hup : reachable s = true)
    (Hparse : parse_object_id order_id = Some oid)
    (Hnone : forallb (fun x => negb (field_is_id "_id" oid x)) (docs s) = true) :
  update_order_status (Some s) order_id status now
  = (Raise (HTTPException 404 "Order not found"),
     Some {| docs := docs s; reachable := true;
             calls := CallUpdateOne [("_id", VObjectId oid)]
                        [("$set", VDoc [("status", VStr status);
                                        ("updated_at", VDatetime now)])]
                      :: calls s |}).
Proof.
  unfold update_order_status, with_db, bind, try_except, object_id.
  rewrite Hparse. unfold ret at 1. unfold update_one.
  rewrite (request_ok _ _ _ s _ Hup (compile_id_filter oid)).
  cbn [dict_get String.eqb Ascii.eqb Bool.eqb fst snd].
  rewrite update_first_nothing; [reflexivity|].
  rewrite (forallb_pointwise _ (fun x => negb (field_is_id "_id" oid x)));
    [exact Hnone | intro x; rewrite andb_true_r; reflexivity].
Qed.

Lemma update_order_status_not_found_witness :
  http_status
    (fst (update_order_status (E := Reference.externals) (Some Demo.store)
            "665f1c2ab7e4d900123456ff" "delivered" Demo.later)) = 404%Z.
Proof.
  rewrite (update_order_status_not_found (E := Reference.externals) Demo.store
             "665f1c2ab7e4d900123456ff" "delivered" Demo.later
             (mkObjectId "665f1c2ab7e4d900123456ff") eq_refl eq_refl eq_refl).
  reflexivity.
Defined.

(** X14: the status update never adds, removes or re-identifies a
    document: whatever the request and whatever comes of it, the store
    holds as many documents as before, with the same [_id] at every
    place. *)
Theorem update_order_status_keeps_ids {E : Externals} (s : Store)
    (order_id status : string) (now : datetime) :
  exists s',
    snd (update_order_status (Some s) order_id status now) = Some s'
    /\ map (dict_get "_id") (docs s') = map (dict_get "_id") (docs s)
    /\ List.length (docs s') = List.length (docs s).
Proof.
  destruct (update_order_status_docs s order_id status now) as [s' [Hs [_ Hd]]].
  exists s'. split; [exact Hs|].
  assert (Hids : map (dict_get "_id") (docs s') = map (dict_get "_id") (docs s)).
  { rewrite Hd. destruct (parse_object_id order_id) as [oid|]; [|reflexivity].
    destruct (reachable s); [|reflexivity].
    destruct (update_first _ _ (docs s)) as [ds|] eqn:Hu; [|reflexivity].
    apply update_first_Some in Hu.
    destruct Hu as [before [d [after [H1 [H2 _]]]]]. rewrite H1, H2.
    rewrite !map_app. cbn [map]. rewrite apply_set_status_get. reflexivity. }
  split; [exact Hids|].
  rewrite <- (length_map (dict_get "_id") (docs s')), Hids.
  apply length_map.
Qed.

Lemma well_formed_apply_set (status : string) (now : datetime) (d : doc) :
  well_formed d = true ->
  well_formed
    (apply_set [("status", VStr status); ("updated_at", VDatetime now)] d)
  = true.
Proof.
  unfold well_formed, has_id. intro H. apply andb_true_iff in H.
  destruct H as [Hid Hu]. apply andb_true_iff. split.
  - rewrite apply_set_status_get. exact Hid.
  - rewrite apply_set_status. apply keys_unique_NoDup.
    apply NoDup_keys_set, NoDup_keys_set, keys_unique_NoDup, Hu.
Qed.

(** X15: the status update keeps the store well formed: when every
    document has [_id] and distinct keys before, every document has them
    after, whatever the request and whatever comes of it. *)
Theorem update_order_status_keeps_well_formed {E : Externals} (s : Store)
    (order_id status : string) (now : datetime)
    (Hwf : forallb well_formed (docs s) = true) :
  exists s',
    snd (update_order_status (Some s) order_id status now) = Some s'
    /\ forallb well_formed (docs s') = true.
Proof.
  destruct (update_order_status_docs s order_id status now) as [s' [Hs [_ Hd]]].
  exists s'. split; [exact Hs|]. rewrite Hd.
  destruct (parse_object_id order_id) as [oid|]; [|exact Hwf].
  destruct (reachable s); [|exact Hwf].
  destruct (update_first _ _ (docs s)) as [ds|] eqn:Hu; [|exact Hwf].
  apply update_first_Some in Hu.
  destruct Hu as [before [d [after [H1 [H2 _]]]]]. rewrite H1 in Hwf.
  rewrite H2. rewrite forallb_app in *. cbn [forallb] in *.
  apply andb_true_iff in Hwf. destruct Hwf as [Hb Hrest].
  apply andb_true_iff in Hrest. destruct Hrest as [Hd0 Ha].
  rewrite Hb, Ha, (well_formed_apply_set status now d Hd0). reflexivity.
Qed.

Lemma update_order_status_keeps_well_formed_witness :
  exists s',
    snd (update_order_status (E := Reference.externals) (Some Demo.store)
           "665f1c2ab7e4d90012345602" "delivered" Demo.later) = Some s'
    /\ forallb well_formed (docs s') = true.
Proof.
  exact (update_order_status_keeps_well_formed (E := Reference.externals)
           Demo.store "665f1c2ab7e4d90012345602" "delivered" Demo.later
           eq_refl).
Defined.

(** X16: the status update is idempotent on the documents: the same request
    with the same reading of the clock, made a second time, leaves the
    documents as the first time left them. *)
Theorem update_order_status_twice {E : Externals} (s : Store)
    (order_id status : string) (now : datetime) :
  exists s1 s2,
    snd (update_order_status (Some s) order_id status now) = Some s1
    /\ snd (update_order_status (Some s1) order_id status now) = Some s2
    /\ docs s2 = docs s1.
Proof.
  destruct (update_order_status_docs s order_id status now)
    as [s1 [Hs1 [Hr1 Hd1]]].
  destruct (update_order_status_docs s1 order_id status now)
    as [s2 [Hs2 [_ Hd2]]].
  exists s1, s2. split; [exact Hs1|]. split; [exact Hs2|].
  rewrite Hd2. destruct (parse_object_id order_id) as [oid|]; [|reflexivity].
  rewrite Hr1. destruct (reachable s); [|reflexivity].
  destruct (update_first _ _ (docs s)) as [ds|] eqn:Hu.
  - rewrite Hd1. apply update_first_Some in Hu.
    destruct Hu as [before [d [after [H1 [H2 [H3 H4]]]]]]. rewrite H2.
    rewrite (update_first_split _ _ before after _ H3).
    + rewrite (apply_set_status_twice status now d). reflexivity.
    + unfold field_is_id in *. rewrite apply_set_status_get. exact H4.
  - rewrite Hd1, Hu. reflexivity.
Qed.

(** X17: what the status update answers is what a fetch of the same
    identifier answers right after it. *)
Theorem update_then_get {E : Externals} (s : Store)
    (order_id status : string) (now : datetime) (oid : ObjectId)
    (before after : list doc) (d : doc)
    (Hup : reachable s = true)
    (Hparse : parse_object_id order_id = Some oid)
    (Hdocs : docs s = before ++ d :: after)
    (Hfirst : forallb (fun x => negb (field_is_id "_id" oid x)) before = true)
    (Hd : field_is_id "_id" oid d = true) :
  exists out s1 s2,
    update_order_status (Some s) order_id status now
    = (Ok (Some out), Some s1)
    /\ get_order (Some s1) order_id = (Ok out, Some s2).
Proof.
  set (fields := [("status", VStr status); ("updated_at", VDatetime now)]).
  set (d' := apply_set fields d).
  set (p := fun x : doc => field_is_id "_id" oid x && true).
  assert (Hv : dict_get "_id" d = Some (VObjectId oid))
    by (apply field_is_id_spec; exact Hd).
  assert (Hv' : dict_get "_id" d' = Some (VObjectId oid))
    by (unfold d', fields; rewrite apply_set_status_get; exact Hv).
  assert (Hd' : field_is_id "_id" oid d' = true)
    by (apply field_is_id_spec; exact Hv').
  assert (Hpb : forallb (fun x => negb (p x)) before = true).
  { rewrite (forallb_pointwise _ (fun x => negb (field_is_id "_id" oid x)));
      [exact Hfirst | intro x; unfold p; rewrite andb_true_r; reflexivity]. }
  assert (Hpd : p d = true) by (unfold p; rewrite Hd; reflexivity).
  assert (Hpd' : p d' = true) by (unfold p; rewrite Hd'; reflexivity).
  set (s1 := {| docs := before ++ d' :: after; reachable := true;
                calls := CallFindOne [("_id", VObjectId oid)]
                         :: CallUpdateOne [("_id", VObjectId oid)]
                              [("$set", VDoc fields)] :: calls s |}).
  assert (Hrun : update_order_status (Some s) order_id status now
                 = (Ok (Some (serialize_body d' (VObjectId oid))), Some s1)).
  { unfold update_order_status, with_db, bind, try_except, object_id.
    rewrite Hparse. unfold ret at 1. unfold update_one.
    rewrite (request_ok _ _ _ s p Hup (compile_id_filter oid)).
    cbn [dict_get String.eqb Ascii.eqb Bool.eqb fst snd].
    rewrite Hdocs. fold fields.
    rewrite (update_first_split p _ before after d Hpb Hpd).
    cbn [fst snd Z.eqb]. rewrite find_one_run by reflexivity.
    cbn [docs calls]. fold p. fold d'.
    rewrite (hd_filter_split p before after d' Hpb Hpd').
    unfold lift, serialize_fresh_opt.
    rewrite (serialize_fresh_present d' _ Hv'). reflexivity. }
  do 3 eexists. split; [exact Hrun|].
  apply get_order_run with (before := before) (after := after) (d := d')
                           (oid := oid); try assumption; reflexivity.
Qed.

Lemma update_then_get_witness :
  exists out s1 s2,
    update_order_status (E := Reference.externals) (Some Demo.store)
      "665f1c2ab7e4d90012345602" "delivered" Demo.later
    = (Ok (Some out), Some s1)
    /\ get_order (E := Reference.externals) (Some s1)
         "665f1c2ab7e4d90012345602" = (Ok out, Some s2).
Proof.
  exact (update_then_get (E := Reference.externals) Demo.store
           "665f1c2ab7e4d90012345602" "delivered" Demo.later Demo.oid2
           [Demo.ord1001] [Demo.ord1003] Demo.ord1002
           eq_refl eq_refl eq_refl eq_refl eq_refl).
Defined.

Lemma Forall2_In_right {A B : Type} (R : A -> B -> Prop)
    (l : list A) (l' : list B) :
  Forall2 R l l' -> forall y, In y l' -> exists x, In x l /\ R x y.
Proof.
  induction 1 as [|a b l l' Hab _ IH]; intros y Hy; [destruct Hy|].
  destruct Hy as [<-|Hy].
  - exists a. split; [left; reflexivity | exact Hab].
  - destruct (IH y Hy) as [x [Hx Hr]]. exists x. split; [right|]; assumption.
Qed.

(** X18: every item of a listing can be fetched by the [id] it shows, and
    the fetch answers with that very item.  This is for a store whose
    documents have distinct keys and pairwise distinct identifiers of the
    store's own kind, which read back from their string. *)
Theorem listed_item_is_fetched {E : Externals} (s : Store)
    (q status : option string) (sort : string) (number size : Z)
    (p : doc -> bool) (full : list doc)
    (Hsort : sort_permutes)
    (Hup : reachable s = true)
    (Hq : compile_query (VDoc (filter_query q status)) = Some p)
    (Hfull : sort_docs (sort_field_of sort) (direction_of sort)
               (filter p (docs s)) = Some full)
    (Hpage : (1 <= number)%Z) (Hsize : (1 <= size)%Z)
    (Hwf : forall d, In d (docs s) ->
             keys_unique d = true
             /\ exists o, dict_get "_id" d = Some (VObjectId o)
                          /\ parse_object_id (py_str (VObjectId o)) = Some o)
    (Hnodup : NoDup (map (dict_get "_id") (docs s))) :
  exists out s',
    list_orders (Some s) q status sort number size = (Ok out, Some s')
    /\ forall item, In item (items out) ->
         exists sid,
           dict_get "id" item = Some (VStr sid)
           /\ fst (get_order (Some s') sid) = Ok item.
Proof.
  destruct (page_serializes (filter p (docs s)) full _ _
              (Z.to_nat ((number - 1) * size)) (Z.to_nat size) Hsort Hfull)
    as [out Hout].
  { intros x Hx. apply filter_In in Hx. destruct Hx as [Hx _].
    destruct (Hwf x Hx) as [_ [o [Ho _]]]. unfold has_id. rewrite Ho.
    reflexivity. }
  assert (Hrun := list_orders_ok s q status sort number size p full out
                    Hup Hq Hfull Hpage Hsize Hout).
  do 2 eexists. split; [exact Hrun|]. cbn [items].
  intros item Hitem. apply traverse_Forall2 in Hout.
  destruct (Forall2_In_right _ _ _ Hout item Hitem) as [d [Hd Hser]].
  apply In_firstn, In_skipn in Hd.
  apply (Permutation_in _ (Hsort _ _ _ _ Hfull)) in Hd.
  apply filter_In in Hd. destruct Hd as [Hd _].
  destruct (Hwf d Hd) as [Hu [o [Ho Hback]]].
  rewrite (serialize_fresh_present d _ Ho) in Hser. inversion Hser as [Heq].
  destruct (in_split d (docs s) Hd) as [before [after Hsplit]].
  exists (py_str (VObjectId o)). split.
  - rewrite serialize_body_closed by exact Hu. unfold serialized.
    rewrite dict_get_map_render, dict_get_set. reflexivity.
  - erewrite get_order_run with (before := before) (after := after) (d := d)
                                (oid := o) (v := VObjectId o);
      [reflexivity | reflexivity | exact Hback | exact Hsplit | |
       apply field_is_id_spec; exact Ho | exact Ho].
    apply forallb_forall. intros x Hx. apply negb_true_iff.
    destruct (field_is_id "_id" o x) eqn:Hfx; [|reflexivity].
    apply field_is_id_spec in Hfx. exfalso.
    rewrite Hsplit, map_app in Hnodup. cbn [map] in Hnodup.
    apply NoDup_remove_2 in Hnodup. apply Hnodup. apply in_or_app. left.
    rewrite Ho, <- Hfx. apply in_map. exact Hx.
Qed.

Lemma listed_item_is_fetched_witness :
  exists out s',
    list_orders (E := Reference.externals) (Some Demo.store) None
      (Some "shipped") "-created_at" 1 10 = (Ok out, Some s')
    /\ forall item, In item (items out) ->
         exists sid,
           dict_get "id" item = Some (VStr sid)
           /\ fst (get_order (E := Reference.externals) (Some s') sid)
              = Ok item.
Proof.
  apply (listed_item_is_fetched (E := Reference.externals) Demo.store None
           (Some "shipped") "-created_at" 1 10
           (fun d => field_is_string "status" "shipped" d && true)
           [Demo.ord1003] reference_sort_permutes eq_refl eq_refl eq_refl
           ltac:(lia) ltac:(lia)).
  - intros d Hd. simpl in Hd.
    destruct Hd as [<-|[<-|[<-|[]]]];
      (split; [reflexivity | eexists; split; reflexivity]).
  - simpl. repeat constructor; simpl; intuition discriminate.
Defined.

(** ** The diagnostic endpoint *)

Lemma length_truncate (n : nat) (s : string) :
  (String.length (truncate n s) <= n)%nat.
Proof.
  unfold truncate. revert s. induction n as [|n IH]; intro s.
  - destruct s; simpl; lia.
  - destruct s as [|c s]; simpl; [lia|]. specialize (IH s). lia.
Qed.

Lemma truncate_prefix (n : nat) (s : string) :
  exists rest, s = (truncate n s ++ rest)%string.
Proof.
  unfold truncate. revert s. induction n as [|n IH]; intro s.
  - exists s. destruct s; reflexivity.
  - destruct s as [|c s]; simpl; [exists ""; reflexivity|].
    destruct (IH s) as [rest Hrest]. exists rest. f_equal. exact Hrest.
Qed.

(** X19: [test_database] never raises, whatever the handle does.  Its answer
    always has the same six fields, and [database_url] and [database_name]
    say only whether the environment variables are set to something that is
    not empty: what the handle is called never reaches the answer. *)
Theorem test_database_answers (str_exn : exn -> string) (db : option Handle)
    (database_url database_name : option string) :
  exists r,
    test_database str_exn db database_url database_name = Ok r
    /\ keys r = ["backend"; "database"; "database_url"; "database_name";
                 "connection_status"; "collections"]
    /\ dict_get "database_url" r
       = Some (VStr (if env_set database_url then "✅ Set" else "❌ Not Set"))
    /\ dict_get "database_name" r
       = Some (VStr (if env_set database_name then "✅ Set" else "❌ Not Set"))
    /\ dict_get "connection_status" r
       = Some (VStr (match db with
                     | Some _ => "Connected"
                     | None => "Not Connected"
                     end)).
Proof.
  destruct db as [[name [names|e]]|]; (eexists; split; [reflexivity|]);
    repeat split.
Qed.

(** X20: with a handle that lists its collections, the answer shows the
    first ten names, in order, and no more, and reports the database as
    working. *)
Theorem test_database_collections (str_exn : exn -> string) (h : Handle)
    (database_url database_name : option string) (names : list string)
    (Hnames : list_collection_names h = Ok names) :
  exists r,
    test_database str_exn (Some h) database_url database_name = Ok r
    /\ dict_get "collections" r = Some (VList (map VStr (firstn 10 names)))
    /\ (List.length (firstn 10 names) <= 10)%nat
    /\ dict_get "database" r = Some (VStr "✅ Connected & Working").
Proof.
  destruct h as [name listing]. simpl in Hnames. subst listing.
  eexists. split; [reflexivity|]. split; [reflexivity|].
  split; [apply firstn_le_length | reflexivity].
Qed.

Lemma test_database_collections_witness :
  exists r,
    test_database (fun _ => "") (Some (mkHandle (Some "shop") (Ok ["order"])))
      None None = Ok r
    /\ dict_get "collections" r = Some (VList [VStr "order"]).
Proof.
  destruct (test_database_collections (fun _ => "")
              (mkHandle (Some "shop") (Ok ["order"])) None None ["order"]
              eq_refl) as [r [Hrun [Hc _]]].
  exists r. split; [exact Hrun | exact Hc].
Defined.

(** X21: when listing the collections raises, the endpoint still answers:
    the connection is reported as made, no collection is shown, and the
    [database] field carries the first 50 characters of the error's text
    and no more. *)
Theorem test_database_store_error (str_exn : exn -> string) (h : Handle)
    (database_url database_name : option string) (e : exn)
    (Herr : list_collection_names h = Raise e) :
  exists r,
    test_database str_exn (Some h) database_url database_name = Ok r
    /\ dict_get "database" r
       = Some (VStr ("⚠️  Connected but Error: "
                     ++ truncate 50 (str_exn e))%string)
    /\ (String.length (truncate 50 (str_exn e)) <= 50)%nat
    /\ (exists rest, str_exn e = (truncate 50 (str_exn e) ++ rest)%string)
    /\ dict_get "connection_status" r = Some (VStr "Connected")
    /\ dict_get "collections" r = Some (VList []).
Proof.
  destruct h as [name listing]. simpl in Herr. subst listing.
  eexists. split; [reflexivity|]. split; [reflexivity|].
  split; [apply length_truncate|]. split; [apply truncate_prefix|].
  split; reflexivity.
Qed.

Lemma test_database_store_error_witness :
  exists r,
    test_database
      (fun e => match e with StoreError m => m | _ => "" end)
      (Some (mkHandle None (Raise (StoreError "timed out")))) None None = Ok r
    /\ dict_get "database" r
       = Some (VStr "⚠️  Connected but Error: timed out").
Proof.
  destruct (test_database_store_error
              (fun e => match e with StoreError m => m | _ => "" end)
              (mkHandle None (Raise (StoreError "timed out"))) None None
              (StoreError "timed out") eq_refl) as [r [Hrun [Hd _]]].
  exists r. split; [exact Hrun | exact Hd].
Defined.

(** ** Seeding *)

Lemma length_assign_ids (fresh : nat -> ObjectId) (n : nat) (ds : list doc) :
  List.length (assign_ids fresh n ds) = List.length ds.
Proof.
  revert n. induction ds as [|d ds IH]; intro n; simpl; [reflexivity|].
  f_equal. apply IH.
Qed.

Lemma well_formed_with_id (o : ObjectId) (d : doc) :
  keys_unique d = true -> well_formed (with_id o d) = true.
Proof.
  intro Hu. unfold with_id, well_formed, has_id.
  destruct (dict_get "_id" d) as [v|] eqn:Hid.
  - rewrite Hid, Hu. reflexivity.
  - cbn [dict_get String.eqb Ascii.eqb Bool.eqb keys_unique andb].
    rewrite Hu, andb_true_r. apply negb_true_iff.
    destruct (mem_string "_id" (keys d)) eqn:Hm; [|reflexivity].
    apply mem_string_In, dict_get_In_keys in Hm. congruence.
Qed.

Lemma well_formed_assign_ids (fresh : nat -> ObjectId) (n : nat)
    (ds : list doc) :
  forallb keys_unique ds = true ->
  forallb well_formed (assign_ids fresh n ds) = true.
Proof.
  revert n. induction ds as [|d ds IH]; intro n; simpl; [reflexivity|].
  intro H. apply andb_true_iff in H. destruct H as [Hd Hds].
  rewrite (well_formed_with_id _ d Hd), (IH _ Hds). reflexivity.
Qed.

(** X22: seeding a store that can be reached answers [{"inserted": 3}] and
    puts the three demo orders after the documents that were there, each
    with an identifier of its own in front and otherwise as written; a
    store that cannot be reached is left as it was and the answer is 500. *)
Theorem seed_orders_appends (s : Store)
    (fresh : nat -> ObjectId) (clock : nat -> datetime) :
  let n := List.length (docs s) in
  exists s',
    snd (seed_orders (Some s) fresh clock) = Some s'
    /\ if reachable s then
         fst (seed_orders (Some s) fresh clock) = Ok [("inserted", VInt 3)]
         /\ docs s' =
            docs s
            ++ map (fun io => ("_id", VObjectId (fresh (n + fst io)%nat))
                              :: snd io)
                 (combine [0; 1; 2]%nat (demo_orders clock))
         /\ calls s' = calls s
       else
         http_status (fst (seed_orders (Some s) fresh clock)) = 500%Z
         /\ s' = s.
Proof.
  intro n. unfold seed_orders, with_db, bind, insert_many.
  destruct (reachable s).
  - eexists. split; [reflexivity|]. split; [reflexivity|].
    split; [|reflexivity]. cbn [docs]. f_equal. subst n.
    cbn [assign_ids demo_orders combine map fst snd].
    rewrite Nat.add_0_r, <- !plus_n_Sm, Nat.add_0_r. reflexivity.
  - exists s. repeat split.
Qed.

(** X23: seeding is not idempotent: seeded a second time, a store that can
    be reached holds six more documents than at the start, and two more
    with the order number ORD-1001. *)
Theorem seed_orders_twice (s : Store)
    (fresh fresh' : nat -> ObjectId) (clock clock' : nat -> datetime)
    (Hup : reachable s = true) :
  exists s1 s2,
    snd (seed_orders (Some s) fresh clock) = Some s1
    /\ snd (seed_orders (Some s1) fresh' clock') = Some s2
    /\ List.length (docs s2) = (List.length (docs s) + 6)%nat
    /\ List.length (filter (field_is_string "order_number" "ORD-1001")
                      (docs s2))
       = (List.length (filter (field_is_string "order_number" "ORD-1001")
                         (docs s)) + 2)%nat.
Proof.
  unfold seed_orders, with_db, bind, insert_many. rewrite Hup.
  do 2 eexists. split; [reflexivity|]. cbn [reachable].
  split; [reflexivity|]. cbn [docs]. split.
  - rewrite !length_app, !length_assign_ids. simpl. lia.
  - rewrite !filter_app, !length_app. simpl. lia.
Qed.

Lemma seed_orders_twice_witness :
  exists s1 s2,
    snd (seed_orders (Some Demo.store)
           demo_fresh demo_clock) = Some s1
    /\ snd (seed_orders (Some s1)
              demo_fresh demo_clock) = Some s2
    /\ List.length (docs s2) = 9%nat.
Proof.
  destruct (seed_orders_twice Demo.store
              demo_fresh demo_fresh
              demo_clock demo_clock eq_refl)
    as [s1 [s2 [H1 [H2 [Hlen _]]]]].
  exists s1, s2. split; [exact H1|]. split; [exact H2 | exact Hlen].
Defined.

(** X24: seeding keeps the store well formed: when every document has
    [_id] and distinct keys before, every document has them after, the
    seeded ones included, whatever comes of the request. *)
Theorem seed_orders_keeps_well_formed (s : Store)
    (fresh : nat -> ObjectId) (clock : nat -> datetime)
    (Hwf : forallb well_formed (docs s) = true) :
  exists s',
    snd (seed_orders (Some s) fresh clock) = Some s'
    /\ forallb well_formed (docs s') = true.
Proof.
  unfold seed_orders, with_db, bind, insert_many.
  destruct (reachable s).
  - eexists. split; [reflexivity|]. cbn [docs].
    rewrite forallb_app, Hwf, well_formed_assign_ids; reflexivity.
  - exists s. split; [reflexivity | exact Hwf].
Qed.

Lemma seed_orders_keeps_well_formed_witness :
  exists s',
    snd (seed_orders (Some Demo.store)
           demo_fresh demo_clock) = Some s'
    /\ forallb well_formed (docs s') = true.
Proof.
  exact (seed_orders_keeps_well_formed Demo.store
           demo_fresh demo_clock eq_refl).
Defined.

(** X25: a seeded order can be fetched by the identifier it was given: on a
    store that can be reached, where the identifier was not in use and
    differs from the ones handed out just before it, the fetch returns that
    demo order, serialized, with its order number. *)
Theorem seed_then_get {E : Externals} (s : Store) (fresh : nat -> ObjectId)
    (clock : nat -> datetime) (order_id : string) (i : nat) (d : doc)
    (Hup : reachable s = true)
    (Hi : nth_error (demo_orders clock) i = Some d)
    (Hparse : parse_object_id order_id
              = Some (fresh (List.length (docs s) + i)%nat))
    (Hnew : forallb
              (fun x => negb (field_is_id "_id"
                                (fresh (List.length (docs s) + i)%nat) x))
              (docs s) = true)
    (Hdistinct : forall j, (j < i)%nat ->
                   oid_hex (fresh (List.length (docs s) + j)%nat)
                   <> oid_hex (fresh (List.length (docs s) + i)%nat)) :
  exists s1 out s2,
    snd (seed_orders (Some s) fresh clock) = Some s1
    /\ get_order (Some s1) order_id = (Ok out, Some s2)
    /\ serialize_fresh
         (("_id", VObjectId (fresh (List.length (docs s) + i)%nat)) :: d)
       = Ok out
    /\ dict_get "order_number" out = dict_get "order_number" d.
Proof.
  unfold seed_orders, with_db, bind, insert_many. rewrite Hup. cbn [snd ret].
  remember (List.length (docs s)) as n eqn:Hn.
  assert (Hother : forall o o' x, oid_hex o' <> oid_hex o ->
            field_is_id "_id" o (("_id", VObjectId o') :: x) = false).
  { intros o o' x Hne. unfold field_is_id.
    cbn [dict_get String.eqb Ascii.eqb Bool.eqb].
    apply String.eqb_neq. intro Heq. apply Hne. symmetry. exact Heq. }
  assert (Hself : forall o x,
            field_is_id "_id" o (("_id", VObjectId o) :: x) = true).
  { intros o x. unfold field_is_id.
    cbn [dict_get String.eqb Ascii.eqb Bool.eqb]. apply String.eqb_refl. }
  destruct i as [|[|[|i]]]; cbn [nth_error demo_orders] in Hi;
    [ | | | destruct i; discriminate Hi]; injection Hi as <-.
  - rewrite Nat.add_0_r in *.
    do 3 eexists. split; [reflexivity|].
    cbn [assign_ids demo_orders with_id demo_order dict_get String.eqb
         Ascii.eqb Bool.eqb].
    split; [|split].
    + eapply get_order_run with (before := docs s) (oid := fresh n);
        [reflexivity | exact Hparse | reflexivity | exact Hnew
        | apply Hself | reflexivity].
    + apply serialize_fresh_present. reflexivity.
    + rewrite serialize_body_closed by reflexivity. reflexivity.
  - pose proof (Hdistinct 0%nat ltac:(lia)) as H0.
    rewrite Nat.add_0_r in H0.
    replace (n + 1)%nat with (S n) in * by lia.
    do 3 eexists. split; [reflexivity|].
    cbn [assign_ids demo_orders with_id demo_order dict_get String.eqb
         Ascii.eqb Bool.eqb].
    split; [|split].
    + eapply get_order_run
        with (before := docs s ++ [("_id", VObjectId (fresh n)) :: _])
             (oid := fresh (S n));
        [reflexivity | exact Hparse
        | cbn [docs]; rewrite <- app_assoc; reflexivity
        | rewrite forallb_app, Hnew; cbn [forallb];
          rewrite (Hother _ _ _ H0); reflexivity
        | apply Hself | reflexivity].
    + apply serialize_fresh_present. reflexivity.
    + rewrite serialize_body_closed by reflexivity. reflexivity.
  - pose proof (Hdistinct 0%nat ltac:(lia)) as H0.
    pose proof (Hdistinct 1%nat ltac:(lia)) as H1.
    rewrite Nat.add_0_r in H0.
    replace (n + 1)%nat with (S n) in * by lia.
    replace (n + 2)%nat with (S (S n)) in * by lia.
    do 3 eexists. split; [reflexivity|].
    cbn [assign_ids demo_orders with_id demo_order dict_get String.eqb
         Ascii.eqb Bool.eqb].
    split; [|split].
    + eapply get_order_run
        with (before := docs s ++ [("_id", VObjectId (fresh n)) :: _;
                                   ("_id", VObjectId (fresh (S n))) :: _])
             (oid := fresh (S (S n)));
        [reflexivity | exact Hparse
        | cbn [docs]; rewrite <- app_assoc; reflexivity
        | rewrite forallb_app, Hnew; cbn [forallb];
          rewrite (Hother _ _ _ H0), (Hother _ _ _ H1); reflexivity
        | apply Hself | reflexivity].
    + apply serialize_fresh_present. reflexivity.
    + rewrite serialize_body_closed by reflexivity. reflexivity.
Qed.

Lemma seed_then_get_witness :
  exists s1 out s2,
    snd (seed_orders (Some Demo.store) demo_fresh demo_clock) = Some s1
    /\ get_order (E := Reference.externals) (Some s1)
         "665f1c2ab7e4d90012340105" = (Ok out, Some s2)
    /\ dict_get "order_number" out = Some (VStr "ORD-1003").
Proof.
  destruct (seed_then_get (E := Reference.externals) Demo.store demo_fresh
              demo_clock "665f1c2ab7e4d90012340105" 2
              (demo_order "ORD-1003" "Maya Khan" "maya@example.com" "shipped"
                 (Demo.whole 120)
                 [Demo.line "Radiant Blush Palette" 1 (Demo.whole 55);
                  Demo.line "Ultra Define Mascara" 2 (Demo.half 65)]
                 (demo_clock 4) (demo_clock 5))
              eq_refl eq_refl eq_refl eq_refl)
    as [s1 [out [s2 [H1 [H2 [_ H3]]]]]].
  - intros j Hj. destruct j as [|[|j]]; [| |lia]; vm_compute; discriminate.
  - exists s1, out, s2. split; [exact H1|]. split; [exact H2 | exact H3].
Defined.

Lemma serialize_id_frame_witness :
  nth_error
    (snd (serialize_id (E := Reference.externals) (Some 0%nat)
            [Demo.ord1002; Demo.ord1003])) 1
  = Some Demo.ord1003.
Proof.
  exact (proj2 (serialize_id_frame (E := Reference.externals)
                  [Demo.ord1002; Demo.ord1003] (Some 0%nat))
           1%nat ltac:(discriminate)).
Defined.
